(** * Market Truth Framework: synthesis engine and temporal delta engine

    A shallow embedding of
    - [market_truth/core/layer_schema.py]     (module [LayerOutput]),
    - [market_truth/core/synthesis_engine.py] (module [Synthesis]),
    - [market_truth/core/temporal_engine.py]  (module [Temporal]),
    - the part of [market_truth/core/framework.py] that turns analyzer
      outputs into the synthesis (module [Framework]),
    followed by the properties of the specification that concern them and
    by further properties of the same code.

    Numbers.  The Python code computes on floats; here every number is an
    exact rational ([Q]), so [0.3] is the fraction 3/10 and sums, products
    and quotients are exact.  Equality of numbers is [Qeq] ([==]).

    Module [Binary64] holds the scorer and the belief computation a
    second time, on binary64 numbers with their rounding ([PrimFloat]), to
    show where the rounded results leave the exact ones.

    Dictionaries.  A Python dict with string keys is a [gmap string _]; a
    dict that is read with [d.get(key, default)] is a record whose fields
    are options, [None] standing for an absent key.  Console output
    ([print]) is not modelled. *)

From Stdlib Require Import QArith Qabs Qround Qminmax Lqa Lia PrimFloat.
From stdpp Require Import gmap strings list fin_maps.

Local Open Scope Q_scope.

(** A decimal literal of binary64 type stands for the nearest binary64
    number, as it does in Python. *)
#[local] Set Warnings "-inexact-float".

(** ** Numeric helpers *)

Module Num.

(** [a < b], [a >= b] and [a > b] as the booleans Python computes. *)
Definition Qlt_bool (a b : Q) : bool := negb (Qle_bool b a).
Definition Qge_bool (a b : Q) : bool := Qle_bool b a.
Definition Qgt_bool (a b : Q) : bool := Qlt_bool b a.

(** Python's [sum]: a left fold that starts at 0. *)
Definition Qsum (l : list Q) : Q := fold_left Qplus l 0.

(** [len(l)] as a number. *)
Definition Qlen {A} (l : list A) : Q := inject_Z (Z.of_nat (length l)).

(** [round(q)] to the nearest integer, ties to the even one. *)
Definition round_half_even (q : Q) : Z :=
  let f := Qfloor q in
  let r := q - inject_Z f in
  if Qlt_bool r 0.5 then f
  else if Qlt_bool 0.5 r then (f + 1)%Z
  else if Z.even f then f else (f + 1)%Z.

(** [round(q, 2)]. *)
Definition round2 (q : Q) : Q := inject_Z (round_half_even (q * 100)) / 100.

(** The square of [numpy.std]: the population variance.  The code only
    compares the standard deviation with 2 and with 4; since it is never
    negative, [std < 2] is [variance < 4] and [std > 4] is
    [variance > 16]. *)
Definition pvariance (l : list Q) : Q :=
  let mu := Qsum l / Qlen l in
  Qsum (map (fun x => (x - mu) * (x - mu)) l) / Qlen l.

End Num.

Import Num.

(** ** layer_schema.py *)

Module LayerOutput.

(** A normalized layer output.  The engine reads it with [.get], so every
    field may be absent.  [raw_data] (the analyzer's own dict, kept for
    debugging) is never read and is left out. *)
Record Layer := mkLayer {
  score : option Q;
  normalized_score : option Q;
  trajectory : option string;
  risk_level : option string;
  risk_flags : option (list string);
  strength_flags : option (list string);
  core_signals : option (gmap string string)
}.

(** The empty dict [{}], the default of [layers.get(name, {})]. *)
Definition empty_dict : Layer :=
  mkLayer None None None None None None None.

(** [LayerOutput.create_empty(reason)]. *)
Definition create_empty (reason : string) : Layer :=
  {| score := Some 5;
     normalized_score := Some 0.5;
     trajectory := Some "unknown";
     risk_level := Some "medium";
     risk_flags := Some [];
     strength_flags := Some [];
     core_signals := Some {[ "note" := reason ]} |}.

(** The raw output of an analyzer, the argument of [normalize]: the keys
    the normalizer and its caller read, and [r_other] for every other key
    of the dict (analyzer-specific detail, never interpreted). *)
Record RawOutput := mkRaw {
  r_score : option Q;
  r_red_flags : option (list string);
  r_green_flags : option (list string);
  r_timestamp : option string;
  r_ticker : option string;
  r_error : option string;
  r_other : gmap string string
}.

Definition critical_flags : list string :=
  [ "NEGATIVE_FREE_CASH_FLOW"; "LOW_INTEREST_COVERAGE"; "REVENUE_UP_CASH_DOWN";
    "DECLINING_REVENUE"; "BANKRUPTCY_RISK" ].

Definition high_risk_flags : list string :=
  [ "HIGH_DEBT_TO_EBITDA"; "SLOW_COLLECTIONS"; "INVENTORY_BUILDING";
    "INSIDER_HEAVY_SELLING" ].

(** The loop [for flag in red_flags], with its [break] at the first
    critical flag; the second argument is the variable [risk_level]. *)
Fixpoint scan_flags (red_flags : list string) (risk_level : string) : string :=
  match red_flags with
  | [] => risk_level
  | flag :: rest =>
      if bool_decide (flag ∈ critical_flags) then "critical"
      else if bool_decide (flag ∈ high_risk_flags) then scan_flags rest "high"
      else scan_flags rest risk_level
  end.

(** [LayerOutput.normalize(raw_output)].  [core_signals] keeps every key
    but score, red_flags, green_flags, timestamp, ticker and error. *)
Definition normalize (raw_output : RawOutput) : Layer :=
  let score := default 5 (r_score raw_output) in
  let red_flags := default [] (r_red_flags raw_output) in
  let green_flags := default [] (r_green_flags raw_output) in
  let trajectory :=
    if Qgt_bool (Qlen green_flags) (Qlen red_flags * 1.5) then "improving"
    else if Qgt_bool (Qlen red_flags) (Qlen green_flags * 1.5) then "deteriorating"
    else if Qgt_bool score 0 then "stable"
    else "unknown" in
  let risk_level := scan_flags red_flags "minimal" in
  let risk_level :=
    if bool_decide (risk_level = "minimal") && (3 <? length red_flags)%nat
    then "medium"
    else if bool_decide (risk_level = "minimal") && (0 <? length red_flags)%nat
    then "low"
    else risk_level in
  {| score := Some score;
     normalized_score := Some (round2 (score / 10));
     trajectory := Some trajectory;
     risk_level := Some risk_level;
     risk_flags := Some red_flags;
     strength_flags := Some green_flags;
     core_signals := Some (r_other raw_output) |}.

End LayerOutput.

Import LayerOutput.

(** ** synthesis_engine.py *)

Module Synthesis.

(** The engine holds the table read from [config/industry_weights.json]:
    sector or industry name to per-layer weights.  The file itself is
    not part of the sources, so the table is a field of the engine and
    every statement below is about an arbitrary table. *)
Record SynthesisEngine := mkEngine {
  industry_weights : gmap string (gmap string Q)
}.

(** [self.industry_weights.get('_default_weights', {})]. *)
Definition default_weights (self : SynthesisEngine) : gmap string Q :=
  default ∅ (industry_weights self !! "_default_weights").

(** [{k: v for k, v in w.items() if not k.startswith('_')}]. *)
Definition drop_private (w : gmap string Q) : gmap string Q :=
  filter (fun kv => String.prefix "_" kv.1 = false) w.

(** [name and name in self.industry_weights], then the entry: [None]
    and the empty string are falsy. *)
Definition named_entry (self : SynthesisEngine) (name : option string)
  : option (gmap string Q) :=
  match name with
  | Some n => if String.eqb n "" then None else industry_weights self !! n
  | None => None
  end.

Definition _get_weights (self : SynthesisEngine)
    (sector industry : option string) : gmap string Q :=
  match named_entry self industry with
  | Some w => drop_private w
  | None =>
      match named_entry self sector with
      | Some w => drop_private w
      | None => default_weights self
      end
  end.

(** *** Structural patterns *)

Record StructuralAnalysis := mkAnalysis {
  disqualify : bool;
  amplify : bool;
  override_rules_triggered : list string;
  pattern_matches : list string;
  cross_layer_signals : gmap string string
}.

(** [layers.get(name, {})]. *)
Definition layer_get (layers : gmap string Layer) (name : string) : Layer :=
  default empty_dict (layers !! name).

(** [flag in layer.get('risk_flags', [])]. *)
Definition has_risk_flag (flag : string) (layer : Layer) : bool :=
  bool_decide (flag ∈ default [] (risk_flags layer)).

(** [layer.get('risk_level') in levels]. *)
Definition risk_level_in (layer : Layer) (levels : list string) : bool :=
  bool_decide (risk_level layer ∈ (Some <$> levels)).

(** [layer.get('trajectory') == t]. *)
Definition trajectory_is (layer : Layer) (t : string) : bool :=
  bool_decide (trajectory layer = Some t).

(** [[layer.get('trajectory') for layer in layers.values()].count(t)]. *)
Definition trajectory_count (layers : gmap string Layer) (t : string) : nat :=
  length (filter (fun kl => trajectory kl.2 = Some t) (map_to_list layers)).

(** The conditions of the five override rules. *)
Definition rule1 (layers : gmap string Layer) : bool :=
  let financial := layer_get layers "financial_truth" in
  let management := layer_get layers "management" in
  risk_level_in financial ["critical"; "high"]
  && has_risk_flag "NEGATIVE_FREE_CASH_FLOW" financial
  && has_risk_flag "INSIDER_HEAVY_SELLING" management.

Definition rule2 (layers : gmap string Layer) : bool :=
  has_risk_flag "DECLINING_REVENUE" (layer_get layers "business_model")
  && has_risk_flag "REVENUE_UP_CASH_DOWN" (layer_get layers "financial_truth").

Definition rule3 (layers : gmap string Layer) : bool :=
  let financial := layer_get layers "financial_truth" in
  has_risk_flag "NEGATIVE_FREE_CASH_FLOW" financial
  && has_risk_flag "HIGH_DEBT_TO_EBITDA" financial.

Definition rule4 (layers : gmap string Layer) : bool :=
  let financial := layer_get layers "financial_truth" in
  has_risk_flag "LOW_INTEREST_COVERAGE" financial
  && trajectory_is financial "deteriorating".

Definition rule5 (layers : gmap string Layer) : bool :=
  risk_level_in (layer_get layers "competitive") ["high"; "critical"]
  && has_risk_flag "LOW_MARGINS" (layer_get layers "business_model").

Definition msg_rule1 : string :=
  "FINANCIAL_DISTRESS + INSIDER_SELLING = Management bailing before bankruptcy".
Definition msg_rule2 : string :=
  "DECLINING_REVENUE + CASH_FLOW_DETERIORATION = Business dying".
Definition msg_rule3 : string :=
  "NEGATIVE_FCF + HIGH_DEBT = Cannot service debt, distress imminent".
Definition msg_rule4 : string :=
  "LOW_COVERAGE + DETERIORATING = Death spiral beginning".
Definition msg_rule5 : string :=
  "COMPETITIVE_PRESSURE + LOW_MARGINS = No moat, commodity pricing".

(** The statements the code runs on the [analysis] dict. *)
Definition set_disqualify (a : StructuralAnalysis) : StructuralAnalysis :=
  mkAnalysis true (amplify a) (override_rules_triggered a)
             (pattern_matches a) (cross_layer_signals a).

Definition set_amplify (a : StructuralAnalysis) : StructuralAnalysis :=
  mkAnalysis (disqualify a) true (override_rules_triggered a)
             (pattern_matches a) (cross_layer_signals a).

Definition append_override (msg : string) (a : StructuralAnalysis)
  : StructuralAnalysis :=
  mkAnalysis (disqualify a) (amplify a) (override_rules_triggered a ++ [msg])
             (pattern_matches a) (cross_layer_signals a).

Definition append_pattern (p : string) (a : StructuralAnalysis)
  : StructuralAnalysis :=
  mkAnalysis (disqualify a) (amplify a) (override_rules_triggered a)
             (pattern_matches a ++ [p]) (cross_layer_signals a).

Definition set_signal (k v : string) (a : StructuralAnalysis)
  : StructuralAnalysis :=
  mkAnalysis (disqualify a) (amplify a) (override_rules_triggered a)
             (pattern_matches a) (<[k := v]> (cross_layer_signals a)).

(** [if c: body]. *)
Definition when {A} (c : bool) (body : A -> A) (a : A) : A :=
  if c then body a else a.

(** [[layer.get('score', 5) for layer in layers.values() if 'score' in layer]]. *)
Definition present_scores (layers : gmap string Layer) : list Q :=
  omap (fun kl => score kl.2) (map_to_list layers).

(** The consistency check on the spread of the scores. *)
Definition consistency_check (layers : gmap string Layer)
    (a : StructuralAnalysis) : StructuralAnalysis :=
  match present_scores layers with
  | [] => a
  | scores =>
      let variance := pvariance scores in
      if Qlt_bool variance 4 then set_signal "consistency" "HIGH" a
      else if Qlt_bool 16 variance then
        append_pattern "MIXED_SIGNALS" (set_signal "consistency" "CONFLICTING" a)
      else a
  end.

Definition initial_analysis : StructuralAnalysis :=
  mkAnalysis false false [] [] ∅.

Definition _analyze_structural_patterns (layers : gmap string Layer)
  : StructuralAnalysis :=
  let business := layer_get layers "business_model" in
  let financial := layer_get layers "financial_truth" in
  let a := initial_analysis in
  let a := when (rule1 layers)
             (fun a => append_override msg_rule1 (set_disqualify a)) a in
  let a := when (rule2 layers)
             (fun a => append_override msg_rule2 (set_disqualify a)) a in
  let a := when (rule3 layers)
             (fun a => append_override msg_rule3 (set_disqualify a)) a in
  let a := when (rule4 layers)
             (fun a => append_override msg_rule4 (set_disqualify a)) a in
  let a := when (rule5 layers) (append_override msg_rule5) a in
  let a := when (Qge_bool (default 0 (score business)) 7
                 && Qge_bool (default 0 (score financial)) 7)
             (fun a => append_pattern "STRONG_FUNDAMENTALS" (set_amplify a)) a in
  let improving_count := trajectory_count layers "improving" in
  let deteriorating_count := trajectory_count layers "deteriorating" in
  let a := when ((3 <=? improving_count)%nat && (deteriorating_count =? 0)%nat)
             (fun a => append_pattern "BROAD_IMPROVEMENT" (set_amplify a)) a in
  let a := when (Qge_bool (default 0 (score business)) 8
                 && trajectory_is financial "improving")
             (append_pattern "COMPOUNDER_PROFILE") a in
  consistency_check layers a.

(** *** Weighted score *)

(** The seven canonical layers, in the order the scorer visits them,
    each with the key its weight is stored under. *)
Definition layer_mapping : list (string * string) :=
  [ ("business_model", "business_model");
    ("financial_truth", "financial_truth");
    ("management", "management");
    ("market_structure", "market_structure");
    ("competitive", "competitive");
    ("macro", "macro");
    ("risk", "risk") ].

Record BreakdownEntry := mkEntry {
  raw : Q;
  weight : Q;
  weighted : Q
}.

(** The three accumulators of the scoring loop. *)
Record ScoreAcc := mkAcc {
  weighted_total : Q;
  weight_sum : Q;
  breakdown : gmap string BreakdownEntry
}.

Definition score_init : ScoreAcc := mkAcc 0 0 ∅.

(** One iteration of [for layer_key, weight_key in layer_mapping.items()]. *)
Definition score_step (layers : gmap string Layer) (weights : gmap string Q)
    (acc : ScoreAcc) (km : string * string) : ScoreAcc :=
  match layers !! km.1 with
  | Some layer_data =>
      let raw_score := default 5 (score layer_data) in
      let weight := default 1.0 (weights !! km.2) in
      let weighted_score := raw_score * weight in
      mkAcc (weighted_total acc + weighted_score)
            (weight_sum acc + weight)
            (<[km.1 := mkEntry raw_score weight weighted_score]> (breakdown acc))
  | None => acc
  end.

Definition score_loop (layers : gmap string Layer) (weights : gmap string Q)
  : ScoreAcc :=
  fold_left (score_step layers weights) layer_mapping score_init.

Definition _calculate_weighted_score (layers : gmap string Layer)
    (weights : gmap string Q) : Q * gmap string BreakdownEntry :=
  let acc := score_loop layers weights in
  let max_possible := 10 * weight_sum acc in
  let normalized_score :=
    if Qgt_bool max_possible 0
    then (weighted_total acc / max_possible) * 100
    else 50 in
  (normalized_score, breakdown acc).

(** *** Belief state *)

(** The three local variables of [_compute_belief_state]. *)
Record Probs := mkProbs {
  bull : Q;
  bear : Q;
  distress : Q
}.

Definition priors : Probs := mkProbs 0.3 0.2 0.05.

(** Financial layer: updates the distress probability. *)
Definition update_financial (financial : Layer) (p : Probs) : Probs :=
  if bool_decide (risk_level financial = Some "critical")
  then mkProbs (bull p) (bear p) (distress p * 5)
  else if bool_decide (risk_level financial = Some "high")
  then mkProbs (bull p) (bear p) (distress p * 3)
  else p.

(** Business layer: updates the bull (and bear) probability. *)
Definition update_business (business : Layer) (p : Probs) : Probs :=
  if Qge_bool (default 5 (score business)) 8
  then mkProbs (bull p * 2) (bear p) (distress p)
  else if Qle_bool (default 5 (score business)) 3
  then mkProbs (bull p * 0.3) (bear p * 2) (distress p)
  else p.

(** Trajectory counts over all layers. *)
Definition update_trajectory (layers : gmap string Layer) (p : Probs) : Probs :=
  let improving_count := trajectory_count layers "improving" in
  let deteriorating_count := trajectory_count layers "deteriorating" in
  let p := when (3 <=? improving_count)%nat
             (fun p => mkProbs (bull p * 1.5) (bear p) (distress p)) p in
  when (3 <=? deteriorating_count)%nat
    (fun p => mkProbs (bull p) (bear p * 2) (distress p * 1.5)) p.

(** The variables once every update from layer evidence has run. *)
Definition evidence_updates (layers : gmap string Layer) : Probs :=
  update_trajectory layers
    (update_business (layer_get layers "business_model")
       (update_financial (layer_get layers "financial_truth") priors)).

(** [if structural_analysis.get('disqualify'): ...]. *)
Definition force_disqualified (structural_analysis : StructuralAnalysis)
    (p : Probs) : Probs :=
  if disqualify structural_analysis
  then mkProbs 0.05 0.7 (Qmin (distress p * 2) 0.5)
  else p.

(** The variables just before the "Normalize probabilities" block. *)
Definition before_normalization (layers : gmap string Layer)
    (structural_analysis : StructuralAnalysis) : Probs :=
  force_disqualified structural_analysis (evidence_updates layers).

Definition normalize_probs (p : Probs) : Probs :=
  let total := bull p + bear p + distress p in
  if Qgt_bool total 1
  then mkProbs (bull p / total) (bear p / total) (distress p / total)
  else p.

Record BeliefState := mkBelief {
  bull_prob : Q;
  bear_prob : Q;
  distress_prob : Q;
  neutral_prob : Q
}.

(** The returned dict. *)
Definition belief_of (p : Probs) : BeliefState :=
  {| bull_prob := bull p;
     bear_prob := bear p;
     distress_prob := distress p;
     neutral_prob := 1 - bull p - bear p - distress p |}.

Definition _compute_belief_state (layers : gmap string Layer)
    (structural_analysis : StructuralAnalysis) : BeliefState :=
  belief_of (normalize_probs (before_normalization layers structural_analysis)).

(** *** Conviction and action *)

(** The reasoning text is an f-string over the values below; it is kept
    as the values it is formatted from, not as the rendered text. *)
Inductive Reasoning :=
| StructuralDisqualifiers (rules : list string)
| HighBankruptcyRisk (p : Q)
| StructuralBearCase (p : Q)
| HighConvictionWinner (p score : Q) (amplified_by : option (list string))
| SolidSetup (score p : Q)
| MarginalCase (score : Q)
| WeakCase (score : Q)
| PoorFundamentals (score : Q).

Definition _determine_action (weighted_score : Q)
    (structural_analysis : StructuralAnalysis) (belief_state : BeliefState)
    (layers : gmap string Layer) : string * string * Reasoning :=
  if disqualify structural_analysis then
    ("AVOID", "DO_NOT_TRADE",
     StructuralDisqualifiers (override_rules_triggered structural_analysis))
  else if Qgt_bool (distress_prob belief_state) 0.2 then
    ("SHORT", "SHORT_CANDIDATE", HighBankruptcyRisk (distress_prob belief_state))
  else if Qgt_bool (bear_prob belief_state) 0.5 then
    ("SHORT", "SHORT_CANDIDATE", StructuralBearCase (bear_prob belief_state))
  else if Qgt_bool (bull_prob belief_state) 0.6 && Qge_bool weighted_score 70 then
    ("HIGH", "BUY_HIGH_CONVICTION",
     HighConvictionWinner (bull_prob belief_state) weighted_score
       (if amplify structural_analysis
        then Some (pattern_matches structural_analysis) else None))
  else if Qge_bool weighted_score 65 then
    ("MEDIUM", "BUY_MEDIUM", SolidSetup weighted_score (bull_prob belief_state))
  else if Qge_bool weighted_score 55 then
    ("LOW", "TRADE_ONLY", MarginalCase weighted_score)
  else if Qge_bool weighted_score 40 then
    ("AVOID", "SPECULATION_ONLY", WeakCase weighted_score)
  else
    ("AVOID", "DO_NOT_TRADE", PoorFundamentals weighted_score).

(** *** synthesize *)

Record SynthesisResult := mkResult {
  ticker : string;
  weighted_score : Q;
  raw_score : Q;
  conviction : string;
  action : string;
  reasoning : Reasoning;
  weights_used : gmap string Q;
  score_breakdown : gmap string BreakdownEntry;
  structural_analysis : StructuralAnalysis;
  belief_state : BeliefState;
  disqualified : bool;
  override_rules : list string
}.

Definition synthesize (self : SynthesisEngine) (layers : gmap string Layer)
    (ticker : string) (sector industry : option string) : SynthesisResult :=
  let weights := _get_weights self sector industry in
  let structural_analysis := _analyze_structural_patterns layers in
  let '(weighted_score, score_breakdown) :=
    _calculate_weighted_score layers weights in
  let belief_state := _compute_belief_state layers structural_analysis in
  let '(conviction, action, reasoning) :=
    _determine_action weighted_score structural_analysis belief_state layers in
  {| ticker := ticker;
     weighted_score := round2 weighted_score;
     raw_score :=
       Qsum ((fun kl => default 5 (score kl.2)) <$> map_to_list layers);
     conviction := conviction;
     action := action;
     reasoning := reasoning;
     weights_used := weights;
     score_breakdown := score_breakdown;
     structural_analysis := structural_analysis;
     belief_state := belief_state;
     disqualified := disqualify structural_analysis;
     override_rules := override_rules_triggered structural_analysis |}.

End Synthesis.

Import Synthesis.

(** ** temporal_engine.py *)

Module Temporal.

(** One entry of [history['analyses']]. *)
Record Snapshot := mkSnapshot {
  snap_timestamp : string;
  snap_layers : gmap string Layer;
  snap_synthesis : SynthesisResult
}.

(** The content of one history file [{ticker}.json]. *)
Record History := mkHistory {
  hist_ticker : string;
  first_analyzed : string;
  analyses : list Snapshot;
  last_updated : string
}.

(** The [analysis] argument of [save_analysis]; only its ['layers'] key
    is read. *)
Record Analysis := mkAnalysisDict {
  analysis_layers : option (gmap string Layer)
}.

(** What [save_analysis] keeps of one layer. *)
Definition snapshot_layer (layer_data : Layer) : Layer :=
  {| score := Some (default 0 (score layer_data));
     normalized_score := None;
     trajectory := Some (default "unknown" (trajectory layer_data));
     risk_level := Some (default "unknown" (risk_level layer_data));
     risk_flags := Some (default [] (risk_flags layer_data));
     strength_flags := Some (default [] (strength_flags layer_data));
     core_signals := None |}.

(** The cache directory is a map from ticker to history file, and
    [save_analysis] returns the directory after the write.  [now k] is
    the [k]-th reading of [datetime.now().isoformat()] during the call. *)
Definition save_analysis (cache : gmap string History) (now : nat -> string)
    (ticker : string) (analysis : Analysis) (synthesis : SynthesisResult)
  : gmap string History :=
  let '(history, k) :=
    match cache !! ticker with
    | Some history => (history, 0%nat)
    | None => (mkHistory ticker (now 0%nat) [] "", 1%nat)
    end in
  let snapshot :=
    mkSnapshot (now k)
               (snapshot_layer <$> default ∅ (analysis_layers analysis))
               synthesis in
  <[ticker := mkHistory (hist_ticker history) (first_analyzed history)
                        (analyses history ++ [snapshot]) (now (S k))]> cache.

(** *** Deltas *)

Record LayerChange := mkChange {
  change_previous : Q;
  change_latest : Q;
  change_delta : Q;
  change_direction : string;
  trajectory_previous : string;
  trajectory_latest : string
}.

Record Momentum := mkMomentum {
  average_layer_delta : Q;
  direction : string;
  acceleration : string
}.

Record RiskDrift := mkDrift {
  new_risks : gset string;
  resolved_risks : gset string;
  persistent_risks : gset string;
  risk_level_change : gmap string (string * string);
  overall_drift : string
}.

Record ConvictionChange := mkConvictionChange {
  previous_conviction : string;
  latest_conviction : string;
  previous_action : string;
  latest_action : string;
  changed : bool
}.

(** [key_changes] is built from the first three elements of Python sets
    turned into lists, whose order is the hash order; it is left out. *)
Record Summary := mkSummary {
  headline : string;
  recommendation : string
}.

Record Delta := mkDelta {
  timestamp_latest : string;
  timestamp_previous : string;
  layer_changes : gmap string LayerChange;
  risk_drift : RiskDrift;
  conviction_change : ConvictionChange;
  momentum : option Momentum;
  summary : Summary
}.

(** The layers of [latest_layers] that are also in [previous_layers],
    each with its latest and its previous record. *)
Definition shared_layers (latest_layers previous_layers : gmap string Layer)
  : list (string * (Layer * Layer)) :=
  omap (fun kl => match previous_layers !! kl.1 with
                  | Some p => Some (kl.1, (kl.2, p))
                  | None => None
                  end)
       (map_to_list latest_layers).

Definition score_delta (lp : Layer * Layer) : Q :=
  default 0 (score lp.1) - default 0 (score lp.2).

(** The list [score_changes]. *)
Definition score_changes (latest_layers previous_layers : gmap string Layer)
  : list Q :=
  (fun klp => score_delta klp.2) <$> shared_layers latest_layers previous_layers.

Definition layer_change (lp : Layer * Layer) : LayerChange :=
  let delta := score_delta lp in
  {| change_previous := default 0 (score lp.2);
     change_latest := default 0 (score lp.1);
     change_delta := round2 delta;
     change_direction :=
       if Qgt_bool delta 0 then "improving"
       else if Qlt_bool delta 0 then "deteriorating" else "stable";
     trajectory_previous := default "unknown" (trajectory lp.2);
     trajectory_latest := default "unknown" (trajectory lp.1) |}.

(** The mean of the per-layer deltas. *)
Definition average (changes : list Q) : Q := Qsum changes / Qlen changes.

(** The ['momentum'] entry; [None] is the empty dict it starts as. *)
Definition momentum_of (changes : list Q) : option Momentum :=
  match changes with
  | [] => None
  | _ =>
      let avg_delta := average changes in
      Some {| average_layer_delta := round2 avg_delta;
              direction :=
                if Qgt_bool avg_delta 0.5 then "IMPROVING"
                else if Qlt_bool avg_delta (-0.5) then "DETERIORATING"
                else "STABLE";
              acceleration :=
                if Qgt_bool avg_delta 1.0 then "ACCELERATING"
                else if Qlt_bool avg_delta (-1.0) then "DECELERATING"
                else "STEADY" |}
  end.

Definition flag_set (layer : Layer) : gset string :=
  list_to_set (default [] (risk_flags layer)).

Definition _analyze_risk_drift (latest_layers previous_layers : gmap string Layer)
  : RiskDrift :=
  let shared := shared_layers latest_layers previous_layers in
  let all_latest_risks : gset string :=
    ⋃ ((fun klp => flag_set klp.2.1) <$> shared) in
  let all_previous_risks : gset string :=
    ⋃ ((fun klp => flag_set klp.2.2) <$> shared) in
  let level_changes : gmap string (string * string) :=
    list_to_map
      (omap (fun klp =>
               let latest_risk_level := default "unknown" (risk_level klp.2.1) in
               let previous_risk_level := default "unknown" (risk_level klp.2.2) in
               if bool_decide (latest_risk_level = previous_risk_level)
               then None
               else Some (klp.1, (previous_risk_level, latest_risk_level)))
            shared) in
  let new := all_latest_risks ∖ all_previous_risks in
  let resolved := all_previous_risks ∖ all_latest_risks in
  let persistent := all_latest_risks ∩ all_previous_risks in
  {| new_risks := new;
     resolved_risks := resolved;
     persistent_risks := persistent;
     risk_level_change := level_changes;
     overall_drift :=
       if (size resolved <? size new)%nat then "DETERIORATING"
       else if (size new <? size resolved)%nat then "IMPROVING"
       else if (5 <? size persistent)%nat then "PERSISTENTLY_RISKY"
       else "STABLE" |}.

Definition _generate_summary (momentum : option Momentum) (drift : RiskDrift)
  : Summary :=
  let momentum_dir := default "STABLE" (direction <$> momentum) in
  let risk_dir := overall_drift drift in
  {| headline :=
       if bool_decide (momentum_dir = "IMPROVING")
          && bool_decide (risk_dir ∈ ["IMPROVING"; "STABLE"])
       then "[^] IMPROVING: Fundamentals strengthening"
       else if bool_decide (momentum_dir = "DETERIORATING")
               && bool_decide (risk_dir ∈ ["DETERIORATING"; "PERSISTENTLY_RISKY"])
       then "[v] DETERIORATING: Red flags multiplying"
       else if bool_decide (momentum_dir = "STABLE")
               && bool_decide (risk_dir = "STABLE")
       then "[->] STABLE: No significant changes"
       else "[!] MIXED: Conflicting signals";
     recommendation :=
       if bool_decide (momentum_dir = "IMPROVING")
       then "Consider increasing position or initiating"
       else if bool_decide (momentum_dir = "DETERIORATING")
       then "Consider reducing position or exiting"
       else "Hold current position, monitor closely" |}.

Definition _compute_deltas (latest previous : Snapshot) (full_history : History)
  : Delta :=
  let latest_layers := snap_layers latest in
  let previous_layers := snap_layers previous in
  let changes := score_changes latest_layers previous_layers in
  let momentum := momentum_of changes in
  let drift := _analyze_risk_drift latest_layers previous_layers in
  let latest_synth := snap_synthesis latest in
  let previous_synth := snap_synthesis previous in
  {| timestamp_latest := snap_timestamp latest;
     timestamp_previous := snap_timestamp previous;
     layer_changes :=
       list_to_map ((fun klp => (klp.1, layer_change klp.2))
                      <$> shared_layers latest_layers previous_layers);
     risk_drift := drift;
     conviction_change :=
       {| previous_conviction := conviction previous_synth;
          latest_conviction := conviction latest_synth;
          previous_action := action previous_synth;
          latest_action := action latest_synth;
          changed :=
            negb (bool_decide (conviction latest_synth = conviction previous_synth)) |};
     momentum := momentum;
     summary := _generate_summary momentum drift |}.

(** What [get_temporal_analysis] returns when it does not return [None]:
    the note about a too short history, or the deltas. *)
Inductive TemporalAnalysis :=
| InsufficientHistory (note : string) (analysis_count : nat)
| Deltas (deltas : Delta).

Definition insufficient_note : string :=
  "Insufficient history (need 2+ analyses)".

(** [analyses[-1]] and [analyses[-2]] are the last two elements; with at
    least two analyses both exist, so the final [None] (Python's
    [IndexError]) is never reached. *)
Definition get_temporal_analysis (cache : gmap string History)
    (ticker : string) : option TemporalAnalysis :=
  match cache !! ticker with
  | None => None
  | Some history =>
      let n := length (analyses history) in
      if (n <? 2)%nat then Some (InsufficientHistory insufficient_note n)
      else
        match analyses history !! (n - 1)%nat, analyses history !! (n - 2)%nat with
        | Some latest, Some previous =>
            Some (Deltas (_compute_deltas latest previous history))
        | _, _ => None
        end
  end.

(** *** History summary *)

Record SeriesPoint := mkPoint {
  point_timestamp : string;
  point_score : Q;
  point_trajectory : string
}.

Record HistorySummary := mkHistorySummary {
  summary_ticker : string;
  summary_first_analyzed : string;
  summary_last_updated : string;
  summary_analysis_count : nat;
  layer_series : gmap string (list SeriesPoint)
}.

(** The inner loop of [get_history_summary]: every layer of the analysis
    appends one point to its series, which starts empty. *)
Definition extend_series (analysis : Snapshot)
    (series : gmap string (list SeriesPoint)) : gmap string (list SeriesPoint) :=
  map_fold
    (fun layer_name layer_data series =>
       <[layer_name :=
           default [] (series !! layer_name)
           ++ [mkPoint (snap_timestamp analysis)
                       (default 0 (score layer_data))
                       (default "unknown" (trajectory layer_data))]]> series)
    series (snap_layers analysis).

Definition get_history_summary (cache : gmap string History) (ticker : string)
  : option HistorySummary :=
  match cache !! ticker with
  | None => None
  | Some history =>
      match analyses history with
      | [] => None
      | _ =>
          Some {| summary_ticker := ticker;
                  summary_first_analyzed := first_analyzed history;
                  summary_last_updated := last_updated history;
                  summary_analysis_count := length (analyses history);
                  layer_series :=
                    fold_left (fun series analysis => extend_series analysis series)
                              (analyses history) ∅ |}
      end
  end.

(** *** A run of the engine *)

(** One call of [save_analysis], and the cache directory after a
    sequence of calls. *)
Record SaveCall := mkCall {
  call_now : nat -> string;
  call_ticker : string;
  call_analysis : Analysis;
  call_synthesis : SynthesisResult
}.

Definition run_saves (cache : gmap string History) (calls : list SaveCall)
  : gmap string History :=
  fold_left (fun cache c =>
               save_analysis cache (call_now c) (call_ticker c)
                             (call_analysis c) (call_synthesis c))
            calls cache.

(** How many snapshots the calls saved for [ticker]. *)
Definition saved_for (ticker : string) (calls : list SaveCall) : nat :=
  length (filter (fun c => call_ticker c = ticker) calls).

End Temporal.

Import Temporal.

(** ** framework.py: from analyzer outputs to the synthesis *)

Module Framework.

(** What the call of one analyzer in [analyze] gives: the dict it
    returned, or the text of the exception it raised. *)
Inductive Outcome :=
| Returned (layer_data : RawOutput)
| Raised (e : string).

(** The [try]/[except] around an analyzer: on an exception the layer is
    [{'score': fallback, 'error': str(e)}]. *)
Definition guarded (fallback : Q) (o : Outcome) : RawOutput :=
  match o with
  | Returned layer_data => layer_data
  | Raised e => mkRaw (Some fallback) None None None None (Some e) ∅
  end.

(** The outcomes of the seven analyzers of one run. *)
Record Outcomes := mkOutcomes {
  business_model_outcome : Outcome;
  financial_truth_outcome : Outcome;
  management_outcome : Outcome;
  market_structure_outcome : Outcome;
  competitive_outcome : Outcome;
  macro_outcome : Outcome;
  risk_outcome : Outcome
}.

(** The placeholder that [analyze] stores under ['technical']. *)
Definition technical_placeholder : RawOutput :=
  mkRaw (Some 0) None None None None None
        {[ "note" := "Run professional_screener.py first to get technical score" ]}.

(** [analysis['layers']] once the seven analyzers have run. *)
Definition collect_layers (o : Outcomes) : gmap string RawOutput :=
  <["risk" := guarded 5 (risk_outcome o)]>
    (<["macro" := guarded 0 (macro_outcome o)]>
       (<["competitive" := guarded 0 (competitive_outcome o)]>
          (<["market_structure" := guarded 0 (market_structure_outcome o)]>
             (<["management" := guarded 0 (management_outcome o)]>
                (<["financial_truth" := guarded 0 (financial_truth_outcome o)]>
                   (<["business_model" := guarded 0 (business_model_outcome o)]>
                      (<["technical" := technical_placeholder]> ∅))))))).

(** One step of the loop "Normalize all layers to standard format": a
    dict with an ['error'] key becomes the empty layer that carries the
    error text, any other dict is normalized. *)
Definition normalize_layer (layer_data : RawOutput) : Layer :=
  match r_error layer_data with
  | Some e => create_empty e
  | None => normalize layer_data
  end.

Definition normalize_layers (layers : gmap string RawOutput)
  : gmap string Layer :=
  normalize_layer <$> layers.

(** The ['synthesis'] entry of the dict [analyze] returns; the sector and
    the industry are what the data provider gave for the ticker. *)
Definition analyze_synthesis (engine : SynthesisEngine) (o : Outcomes)
    (name : string) (sector industry : option string) : SynthesisResult :=
  synthesize engine (normalize_layers (collect_layers o)) name sector industry.

End Framework.

Import Framework.

(** ** The arithmetic of the engine in binary64 *)

(** Python's floats are IEEE 754 binary64 numbers and every operation
    rounds to the nearest one.  This module repeats
    [_calculate_weighted_score] and [_compute_belief_state] with the
    primitive binary64 numbers and operations; a literal such as [1.4]
    denotes, as in Python, the binary64 number closest to it.  Tests on
    strings, on counts and on scores are exact in both versions, so they
    are shared with module [Synthesis]. *)

Module Binary64.

(** [a > b] on binary64 numbers. *)
Definition gt (a b : float) : bool := PrimFloat.ltb b a.

(** The two numeric accumulators of the scoring loop. *)
Record ScoreAcc := mkAcc {
  weighted_total : float;
  weight_sum : float
}.

(** One iteration of the loop.  [scores] gives, for each layer of
    [layers], its ['score'] entry ([None] when the key is absent). *)
Definition score_step (scores : gmap string (option float))
    (weights : gmap string float) (acc : ScoreAcc) (km : string * string)
  : ScoreAcc :=
  match scores !! km.1 with
  | Some layer_score =>
      let raw_score := default 5%float layer_score in
      let weight := default 1.0%float (weights !! km.2) in
      let weighted_score := (raw_score * weight)%float in
      mkAcc (weighted_total acc + weighted_score)%float
            (weight_sum acc + weight)%float
  | None => acc
  end.

(** The normalized score that [_calculate_weighted_score] returns. *)
Definition _calculate_weighted_score (scores : gmap string (option float))
    (weights : gmap string float) : float :=
  let acc := fold_left (score_step scores weights) layer_mapping (mkAcc 0 0) in
  let max_possible := (10 * weight_sum acc)%float in
  if gt max_possible 0
  then (weighted_total acc / max_possible * 100)%float
  else 50%float.

(** The three local variables of [_compute_belief_state]. *)
Record Probs := mkProbs {
  bull : float;
  bear : float;
  distress : float
}.

Definition priors : Probs := mkProbs 0.3 0.2 0.05.

Definition update_financial (financial : Layer) (p : Probs) : Probs :=
  if bool_decide (risk_level financial = Some "critical")
  then mkProbs (bull p) (bear p) (distress p * 5)%float
  else if bool_decide (risk_level financial = Some "high")
  then mkProbs (bull p) (bear p) (distress p * 3)%float
  else p.

Definition update_business (business : Layer) (p : Probs) : Probs :=
  if Qge_bool (default 5%Q (score business)) 8
  then mkProbs (bull p * 2)%float (bear p) (distress p)
  else if Qle_bool (default 5%Q (score business)) 3
  then mkProbs (bull p * 0.3)%float (bear p * 2)%float (distress p)
  else p.

Definition update_trajectory (layers : gmap string Layer) (p : Probs) : Probs :=
  let improving_count := trajectory_count layers "improving" in
  let deteriorating_count := trajectory_count layers "deteriorating" in
  let p := when (3 <=? improving_count)%nat
             (fun p => mkProbs (bull p * 1.5)%float (bear p) (distress p)) p in
  when (3 <=? deteriorating_count)%nat
    (fun p => mkProbs (bull p) (bear p * 2)%float (distress p * 1.5)%float) p.

(** Python's [min(a, b)]: [b] when it is smaller, [a] otherwise. *)
Definition min (a b : float) : float := if PrimFloat.ltb b a then b else a.

Definition force_disqualified (structural_analysis : StructuralAnalysis)
    (p : Probs) : Probs :=
  if disqualify structural_analysis
  then mkProbs 0.05 0.7 (min (distress p * 2)%float 0.5)
  else p.

Definition normalize_probs (p : Probs) : Probs :=
  let total := (bull p + bear p + distress p)%float in
  if gt total 1
  then mkProbs (bull p / total)%float (bear p / total)%float
               (distress p / total)%float
  else p.

Record BeliefState := mkBelief {
  bull_prob : float;
  bear_prob : float;
  distress_prob : float;
  neutral_prob : float
}.

Definition _compute_belief_state (layers : gmap string Layer)
    (structural_analysis : StructuralAnalysis) : BeliefState :=
  let p :=
    normalize_probs
      (force_disqualified structural_analysis
         (update_trajectory layers
            (update_business (layer_get layers "business_model")
               (update_financial (layer_get layers "financial_truth") priors)))) in
  {| bull_prob := bull p;
     bear_prob := bear p;
     distress_prob := distress p;
     neutral_prob := (1 - bull p - bear p - distress p)%float |}.



(** Two layers that both score 6.5, with weights 1.1 and 2.5. *)
Definition unanimous_scores : gmap string (option float) :=
  <["business_model" := Some 6.5%float]>
    (<["financial_truth" := Some 6.5%float]> ∅).

Definition unanimous_weights : gmap string float :=
  <["business_model" := 1.1%float]> (<["financial_truth" := 2.5%float]> ∅).

(** Scores 0 and 9 with weights 0.1 and 0.2, and the same weights
    multiplied by 3. *)
Definition uneven_scores : gmap string (option float) :=
  <["business_model" := Some 0%float]>
    (<["financial_truth" := Some 9%float]> ∅).

Definition small_weights : gmap string float :=
  <["business_model" := 0.1%float]> (<["financial_truth" := 0.2%float]> ∅).

Definition tripled_weights : gmap string float :=
  (fun w => (3 * w)%float) <$> small_weights.

End Binary64.

(** ** Predicates used in the statements *)

Module Predicates.

(** The seven canonical layer names. *)
Definition canonical_names : list string := layer_mapping.*1.

(** Every score present in the layer map lies in [[0,10]]. *)
Definition scores_in_range (layers : gmap string Layer) : Prop :=
  map_Forall (fun _ l => forall s, score l = Some s -> 0 <= s <= 10) layers.

(** Every weight of the weight map is positive. *)
Definition positive_weights (weights : gmap string Q) : Prop :=
  map_Forall (fun _ w => 0 < w) weights.

(** Every layer is canonical and is a [create_empty] output. *)
Definition all_empty (layers : gmap string Layer) : Prop :=
  map_Forall (fun k l => k ∈ canonical_names
                         /\ exists reason, l = create_empty reason) layers.

(** No probability is negative. *)
Definition nonneg (p : Probs) : Prop :=
  0 <= bull p /\ 0 <= bear p /\ 0 <= distress p.

(** A number of [[0,1]]. *)
Definition unit_interval (q : Q) : Prop := 0 <= q <= 1.

(** The acceleration label as the specification words it:
    ACCELERATING if |avg| > 1.0, else DECELERATING if avg < -1.0, else
    STEADY.  (The code's own labelling is in [momentum_of].) *)
Definition spec_acceleration (avg : Q) : string :=
  if Qgt_bool (Qabs avg) 1.0 then "ACCELERATING"
  else if Qlt_bool avg (-1.0) then "DECELERATING"
  else "STEADY".

End Predicates.

Import Predicates.

(** ** Concrete inputs used to exercise the statements below *)

Module Examples.

(** A normalized layer with every key present and no strength flag. *)
Definition layer (s : Q) (traj level : string) (flags : list string) : Layer :=
  mkLayer (Some s) (Some (round2 (s / 10))) (Some traj) (Some level)
          (Some flags) (Some []) (Some ∅).

(** Negative free cash flow while insiders sell (override rule 1). *)
Definition bailing_layers : gmap string Layer :=
  <["business_model" := layer 8 "stable" "minimal" []]>
    (<["financial_truth" :=
         layer 7 "deteriorating" "critical" ["NEGATIVE_FREE_CASH_FLOW"]]>
       (<["management" :=
            layer 6 "deteriorating" "high" ["INSIDER_HEAVY_SELLING"]]> ∅)).

(** A commodity business under competitive pressure (rule 5 only). *)
Definition commodity_layers : gmap string Layer :=
  <["business_model" := layer 6 "deteriorating" "low" ["LOW_MARGINS"]]>
    (<["competitive" := layer 4 "deteriorating" "high" ["SLOW_COLLECTIONS"]]> ∅).

Definition two_layers : gmap string Layer :=
  <["business_model" := layer 8 "stable" "minimal" []]>
    (<["financial_truth" := layer 7 "stable" "minimal" []]> ∅).

Definition software_weights : gmap string Q :=
  <["business_model" := 4]> (<["financial_truth" := 0.5]> ∅).

Definition errored_layers : gmap string Layer :=
  <["business_model" := create_empty "timeout"]>
    (<["risk" := create_empty "No data"]> ∅).

(** A weight table whose default entry carries a metadata key. *)
Definition annotated_engine : SynthesisEngine :=
  mkEngine
    (<["Technology" := <["_version" := 2]> (<["business_model" := 4]> ∅)]>
       (<["_default_weights" :=
            <["_version" := 2]> (<["business_model" := 1]> ∅)]> ∅)).

Definition some_belief : BeliefState := mkBelief 0.6 0.1 0.05 0.25.

Definition clock (k : nat) : string := "2024-01-01T00:00:00".

(** Two analyses of one ticker: the financial score falls from 6 to 4. *)
Definition first_call : SaveCall :=
  mkCall clock "ACME"
    (mkAnalysisDict
       (Some (<["financial_truth" := layer 6 "stable" "minimal" []]> ∅)))
    (synthesize annotated_engine two_layers "ACME" (Some "Technology") None).

Definition second_call : SaveCall :=
  mkCall clock "ACME"
    (mkAnalysisDict
       (Some (<["financial_truth" :=
                  layer 4 "deteriorating" "high" ["HIGH_DEBT_TO_EBITDA"]]> ∅)))
    (synthesize annotated_engine two_layers "ACME" (Some "Technology") None).

Definition falling_previous : Snapshot :=
  mkSnapshot "2024-01-01T00:00:00"
    (<["financial_truth" := snapshot_layer (layer 6 "stable" "minimal" [])]> ∅)
    (synthesize annotated_engine two_layers "ACME" (Some "Technology") None).

Definition falling_latest : Snapshot :=
  mkSnapshot "2024-02-01T00:00:00"
    (<["financial_truth" :=
         snapshot_layer
           (layer 4 "deteriorating" "high" ["HIGH_DEBT_TO_EBITDA"])]> ∅)
    (synthesize annotated_engine two_layers "ACME" (Some "Technology") None).

Definition falling_history : History :=
  mkHistory "ACME" "2024-01-01T00:00:00" [falling_previous; falling_latest]
            "2024-02-01T00:00:00".

End Examples.


Import Examples.

(** ** Measures and inputs for the further properties *)

Module Measures.

(** Some flag of [flags] belongs to the list [among]. *)
Definition any_in (among flags : list string) : bool :=
  bool_decide (Exists (fun f => f ∈ among) flags).

(** The score and the weight the scorer resolves for each canonical layer
    that is present, in the order of [layer_mapping]. *)
Definition resolved (layers : gmap string Layer) (weights : gmap string Q)
  : list (Q * Q) :=
  omap (fun km : string * string =>
          (fun layer_data : Layer =>
             (default 5 (score layer_data), default 1.0 (weights !! km.2)))
            <$> layers !! km.1)
       layer_mapping.

(** The weighted score as the closed formula
    sum(score x weight) / (10 x sum(weight)) x 100. *)
Definition score_formula (pairs : list (Q * Q)) : Q :=
  Qsum ((fun sw => sw.1 * sw.2) <$> pairs) / (10 * Qsum (pairs.*2)) * 100.

(** A raw analyzer output with the given score and flags only. *)
Definition raw (s : Q) (red green : list string) : RawOutput :=
  mkRaw (Some s) (Some red) (Some green) None None None ∅.

(** The scenario of negative free cash flow with insiders selling, as the
    analyzers report it. *)
Definition bailing_raw : gmap string RawOutput :=
  <["business_model" := raw 8 [] []]>
    (<["financial_truth" := raw 7 ["NEGATIVE_FREE_CASH_FLOW"] []]>
       (<["management" := raw 6 ["INSIDER_HEAVY_SELLING"] []]> ∅)).

(** A business that scores high and improves on three layers. *)
Definition compounder_layers : gmap string Layer :=
  <["business_model" := layer 9 "improving" "minimal" []]>
    (<["financial_truth" := layer 8 "improving" "minimal" []]>
       (<["management" := layer 8 "improving" "minimal" []]> ∅)).


(** An analyzer whose result the framework treats as an error: it raised,
    or the dict it returned has an ['error'] key. *)
Definition failed (o : Outcome) : Prop :=
  match o with
  | Raised _ => True
  | Returned layer_data => is_Some (r_error layer_data)
  end.

Definition all_failed (o : Outcomes) : Prop :=
  failed (business_model_outcome o) /\ failed (financial_truth_outcome o)
  /\ failed (management_outcome o) /\ failed (market_structure_outcome o)
  /\ failed (competitive_outcome o) /\ failed (macro_outcome o)
  /\ failed (risk_outcome o).

(** A run in which the data provider is down: six analyzers raise and one
    returns a dict that reports the error. *)
Definition provider_down : Outcomes :=
  mkOutcomes (Raised "HTTP 429") (Returned (mkRaw None None None None None
                                              (Some "No cash flow data available") ∅))
             (Raised "HTTP 429") (Raised "timeout") (Raised "timeout")
             (Raised "HTTP 429") (Raised "timeout").

End Measures.

Import Measures.

(** * Properties *)

(** ** Comparisons *)

Lemma Qlt_bool_iff (a b : Q) : Qlt_bool a b = true <-> a < b.
Proof.
  unfold Qlt_bool. rewrite negb_true_iff, <- not_true_iff_false, Qle_bool_iff.
  split; [apply Qnot_le_lt | apply Qlt_not_le].
Qed.

Lemma Qlt_bool_false (a b : Q) : Qlt_bool a b = false <-> b <= a.
Proof.
  unfold Qlt_bool. rewrite negb_false_iff. apply Qle_bool_iff.
Qed.

Lemma Qgt_bool_iff (a b : Q) : Qgt_bool a b = true <-> b < a.
Proof. apply Qlt_bool_iff. Qed.

Lemma Qgt_bool_false (a b : Q) : Qgt_bool a b = false <-> a <= b.
Proof. apply Qlt_bool_false. Qed.

Lemma Qge_bool_iff (a b : Q) : Qge_bool a b = true <-> b <= a.
Proof. apply Qle_bool_iff. Qed.

Lemma Qge_bool_false (a b : Q) : Qge_bool a b = false <-> a < b.
Proof.
  unfold Qge_bool. rewrite <- not_true_iff_false, Qle_bool_iff.
  split; [apply Qnot_le_lt | apply Qlt_not_le].
Qed.

(** ** The action resolver *)

(** C1.  Whatever the weighted score, the belief state and the layers, a
    structural analysis with [disqualify] set makes [_determine_action]
    return conviction AVOID and action DO_NOT_TRADE (with the triggered
    override rules as the reasoning). *)
Theorem disqualify_dominates
    (ws : Q) (sa : StructuralAnalysis) (bs : BeliefState)
    (layers : gmap string Layer) :
  disqualify sa = true ->
  _determine_action ws sa bs layers
  = ("AVOID", "DO_NOT_TRADE",
     StructuralDisqualifiers (override_rules_triggered sa)).
Proof.
  intros Hd. unfold _determine_action. now rewrite Hd.
Qed.

Lemma disqualify_dominates_witness :
  disqualify (_analyze_structural_patterns bailing_layers) = true
  /\ _determine_action 95 (_analyze_structural_patterns bailing_layers)
       some_belief bailing_layers
     = ("AVOID", "DO_NOT_TRADE",
        StructuralDisqualifiers
          (override_rules_triggered (_analyze_structural_patterns bailing_layers))).
Proof.
  split.
  - vm_compute. reflexivity.
  - apply (disqualify_dominates 95 (_analyze_structural_patterns bailing_layers)
             some_belief bailing_layers).
    vm_compute. reflexivity.
Defined.

(** ** The belief state *)

(** C2.  The four probabilities returned by [_compute_belief_state] add up
    to exactly 1, for every layer map and every structural analysis. *)
Theorem probability_closure
    (layers : gmap string Layer) (sa : StructuralAnalysis) :
  let b := _compute_belief_state layers sa in
  bull_prob b + bear_prob b + distress_prob b + neutral_prob b == 1.
Proof.
  cbv zeta. unfold _compute_belief_state, belief_of. cbn [bull_prob bear_prob
  distress_prob neutral_prob]. ring.
Qed.

(** C3.  When the structural analysis disqualifies, the variables that
    enter the normalization are bull = 0.05, bear = 0.70 and
    distress = min(2 x d, 0.50), where d is the distress probability left
    by all the updates from layer evidence; the bull and bear values those
    updates computed are discarded, and the returned belief state is the
    normalization of the forced values. *)
Theorem disqualify_forces_probabilities
    (layers : gmap string Layer) (sa : StructuralAnalysis) :
  disqualify sa = true ->
  let forced :=
    mkProbs 0.05 0.7 (Qmin (distress (evidence_updates layers) * 2) 0.5) in
  before_normalization layers sa = forced
  /\ _compute_belief_state layers sa = belief_of (normalize_probs forced).
Proof.
  intros Hd. cbv zeta.
  assert (before_normalization layers sa
          = mkProbs 0.05 0.7 (Qmin (distress (evidence_updates layers) * 2) 0.5))
    as Hforced.
  { unfold before_normalization, force_disqualified. now rewrite Hd. }
  split; [exact Hforced |].
  unfold _compute_belief_state. now rewrite Hforced.
Qed.

Lemma disqualify_forces_probabilities_witness :
  disqualify (_analyze_structural_patterns bailing_layers) = true
  /\ before_normalization bailing_layers
       (_analyze_structural_patterns bailing_layers)
     = mkProbs 0.05 0.7
         (Qmin (distress (evidence_updates bailing_layers) * 2) 0.5).
Proof.
  split.
  - vm_compute. reflexivity.
  - apply (disqualify_forces_probabilities bailing_layers
             (_analyze_structural_patterns bailing_layers)).
    vm_compute. reflexivity.
Defined.

(** Each update from layer evidence keeps the three variables
    non-negative. *)
Lemma priors_nonneg : nonneg priors.
Proof. unfold nonneg, priors; cbn; repeat split; lra. Qed.

Lemma update_financial_nonneg (financial : Layer) (p : Probs) :
  nonneg p -> nonneg (update_financial financial p).
Proof.
  unfold nonneg, update_financial. intros (Hb & Hr & Hd).
  repeat case_bool_decide; cbn; repeat split; lra.
Qed.

Lemma update_business_nonneg (business : Layer) (p : Probs) :
  nonneg p -> nonneg (update_business business p).
Proof.
  unfold nonneg, update_business. intros (Hb & Hr & Hd).
  destruct (Qge_bool _ _); [| destruct (Qle_bool _ _)];
    cbn; repeat split; lra.
Qed.

Lemma update_trajectory_nonneg (layers : gmap string Layer) (p : Probs) :
  nonneg p -> nonneg (update_trajectory layers p).
Proof.
  unfold nonneg, update_trajectory, when. intros (Hb & Hr & Hd).
  destruct (3 <=? _)%nat; destruct (3 <=? _)%nat; cbn; repeat split; lra.
Qed.

Lemma evidence_updates_nonneg (layers : gmap string Layer) :
  nonneg (evidence_updates layers).
Proof.
  unfold evidence_updates.
  apply update_trajectory_nonneg, update_business_nonneg,
    update_financial_nonneg, priors_nonneg.
Qed.


(** A non-negative part of a positive total is a fraction of [[0,1]]. *)
Lemma fraction_unit (a t : Q) :
  0 <= a -> a <= t -> 0 < t -> unit_interval (a / t).
Proof.
  intros Ha Hat Ht. split.
  - apply Qle_shift_div_l; [exact Ht | lra].
  - apply Qle_shift_div_r; [exact Ht | lra].
Qed.



(** The case C10 singles out: for the layers of override rule 1 the forced
    values add up to 1.25 before the normalization, and the belief state
    returned has no neutral mass left. *)
Lemma forced_values_exceed_one :
  let sa := _analyze_structural_patterns bailing_layers in
  let p := before_normalization bailing_layers sa in
  disqualify sa = true
  /\ bull p + bear p + distress p == 1.25
  /\ neutral_prob (_compute_belief_state bailing_layers sa) == 0.
Proof. vm_compute. repeat split; reflexivity. Qed.


(** ** The weighted score *)

(** The score and the weight the scorer resolves for a present layer. *)
Lemma resolved_score_range (layers : gmap string Layer) (k : string) (l : Layer) :
  scores_in_range layers -> layers !! k = Some l ->
  0 <= default 5 (score l) <= 10.
Proof.
  intros Hs Hk. specialize (Hs k l Hk). cbn in Hs.
  destruct (score l) as [s |]; cbn; [apply Hs; reflexivity | lra].
Qed.

Lemma resolved_weight_positive (weights : gmap string Q) (k : string) :
  positive_weights weights -> 0 < default 1.0 (weights !! k).
Proof.
  intros Hw. destruct (weights !! k) as [w |] eqn:Hk; cbn; [| lra].
  exact (Hw k w Hk).
Qed.

(** Loop invariant: the running total stays between 0 and ten times the
    running sum of weights. *)
Lemma score_loop_invariant
    (layers : gmap string Layer) (weights : gmap string Q)
    (keys : list (string * string)) (acc : ScoreAcc) :
  scores_in_range layers -> positive_weights weights ->
  0 <= weight_sum acc ->
  0 <= weighted_total acc <= 10 * weight_sum acc ->
  let acc' := fold_left (score_step layers weights) keys acc in
  0 <= weight_sum acc' /\ 0 <= weighted_total acc' <= 10 * weight_sum acc'.
Proof.
  intros Hs Hw. revert acc. induction keys as [| km keys IH]; intros acc Hsum Htot.
  - cbn. split; assumption.
  - cbn [fold_left]. apply IH.
    + unfold score_step. destruct (layers !! km.1) as [l |] eqn:Hk; [| exact Hsum].
      cbn [weight_sum]. pose proof (resolved_weight_positive weights km.2 Hw). lra.
    + unfold score_step. destruct (layers !! km.1) as [l |] eqn:Hk; [| exact Htot].
      cbn [weight_sum weighted_total].
      pose proof (resolved_weight_positive weights km.2 Hw) as Hpos.
      pose proof (resolved_score_range layers km.1 l Hs Hk) as Hrange.
      set (r := default 5 (score l)) in *. set (w := default 1.0 (weights !! km.2)) in *.
      assert (0 <= r * w) by (apply Qmult_le_0_compat; lra).
      assert (r * w <= 10 * w) by (apply Qmult_le_compat_r; lra).
      lra.
Qed.





(** ** The structural pattern analyzer *)

(** A conditional statement leaves untouched what its body leaves
    untouched. *)
Lemma when_preserves {A B} (proj : A -> B) (c : bool) (body : A -> A) (a : A) :
  (forall a, proj (body a) = proj a) -> proj (when c body a) = proj a.
Proof. intros H. unfold when. destruct c; [apply H | reflexivity]. Qed.

Lemma consistency_check_disqualify (layers : gmap string Layer)
    (a : StructuralAnalysis) :
  disqualify (consistency_check layers a) = disqualify a.
Proof.
  unfold consistency_check. destruct (present_scores layers); [reflexivity |].
  destruct (Qlt_bool _ 4); [reflexivity |].
  destruct (Qlt_bool 16 _); reflexivity.
Qed.

Lemma consistency_check_overrides (layers : gmap string Layer)
    (a : StructuralAnalysis) :
  override_rules_triggered (consistency_check layers a)
  = override_rules_triggered a.
Proof.
  unfold consistency_check. destruct (present_scores layers); [reflexivity |].
  destruct (Qlt_bool _ 4); [reflexivity |].
  destruct (Qlt_bool 16 _); reflexivity.
Qed.

(** [disqualify] is the disjunction of the conditions of rules 1 to 4. *)
Lemma analysis_disqualify (layers : gmap string Layer) :
  disqualify (_analyze_structural_patterns layers)
  = rule1 layers || rule2 layers || rule3 layers || rule4 layers.
Proof.
  unfold _analyze_structural_patterns. cbv zeta.
  rewrite consistency_check_disqualify.
  do 4 (rewrite (when_preserves disqualify) by reflexivity).
  unfold when.
  destruct (rule1 layers), (rule2 layers), (rule3 layers), (rule4 layers);
    reflexivity.
Qed.

(** The messages of the rules that hold, in the order of the rules. *)
Lemma analysis_overrides (layers : gmap string Layer) :
  override_rules_triggered (_analyze_structural_patterns layers)
  = (if rule1 layers then [msg_rule1] else [])
    ++ (if rule2 layers then [msg_rule2] else [])
    ++ (if rule3 layers then [msg_rule3] else [])
    ++ (if rule4 layers then [msg_rule4] else [])
    ++ (if rule5 layers then [msg_rule5] else []).
Proof.
  unfold _analyze_structural_patterns. cbv zeta.
  rewrite consistency_check_overrides.
  do 3 (rewrite (when_preserves override_rules_triggered) by reflexivity).
  unfold when.
  destruct (rule1 layers), (rule2 layers), (rule3 layers), (rule4 layers),
    (rule5 layers); reflexivity.
Qed.

(** C9.  When the competitive layer's risk level is high or critical and
    the business layer carries LOW_MARGINS, the analysis lists the
    COMPETITIVE_PRESSURE + LOW_MARGINS message among the triggered rules,
    and [disqualify] is still decided by rules 1 to 4 alone: it is true
    exactly when one of their conditions holds. *)
Theorem competitive_pressure_warns_only
    (layers : gmap string Layer) (competitive business : Layer)
    (flags : list string) :
  layers !! "competitive" = Some competitive ->
  risk_level competitive = Some "high" \/ risk_level competitive = Some "critical" ->
  layers !! "business_model" = Some business ->
  risk_flags business = Some flags ->
  "LOW_MARGINS" ∈ flags ->
  let a := _analyze_structural_patterns layers in
  msg_rule5 ∈ override_rules_triggered a
  /\ disqualify a = rule1 layers || rule2 layers || rule3 layers || rule4 layers.
Proof.
  intros Hc Hlevel Hb Hflags Hin. cbv zeta.
  assert (rule5 layers = true) as H5.
  { unfold rule5, layer_get. rewrite Hc, Hb. cbn [default].
    apply andb_true_intro. split.
    - unfold risk_level_in. apply bool_decide_eq_true.
      change (risk_level competitive ∈ Some <$> ["high"; "critical"]).
      destruct Hlevel as [-> | ->]; cbn.
      + apply list_elem_of_here.
      + apply list_elem_of_further, list_elem_of_here.
    - unfold has_risk_flag. apply bool_decide_eq_true.
      change ("LOW_MARGINS" ∈ default [] (risk_flags business)).
      rewrite Hflags. exact Hin. }
  split; [| apply analysis_disqualify].
  rewrite analysis_overrides, H5.
  do 4 (apply elem_of_app; right). apply list_elem_of_here.
Qed.

Lemma competitive_pressure_warns_only_witness :
  msg_rule5 ∈ override_rules_triggered (_analyze_structural_patterns commodity_layers)
  /\ disqualify (_analyze_structural_patterns commodity_layers) = false.
Proof.
  destruct (competitive_pressure_warns_only commodity_layers
              (layer 4 "deteriorating" "high" ["SLOW_COLLECTIONS"])
              (layer 6 "deteriorating" "low" ["LOW_MARGINS"])
              ["LOW_MARGINS"]) as [Hmsg Hdisq].
  - vm_compute. reflexivity.
  - left. reflexivity.
  - vm_compute. reflexivity.
  - reflexivity.
  - apply list_elem_of_here.
  - split; [exact Hmsg |]. rewrite Hdisq. vm_compute. reflexivity.
Defined.

(** ** Synthesis on empty layers *)

(** What the engine reads of a layer map of [create_empty] outputs: the
    empty dict for an absent layer, a [create_empty] output otherwise. *)
Lemma all_empty_layer_get (layers : gmap string Layer) (name : string) :
  all_empty layers ->
  layer_get layers name = empty_dict
  \/ exists reason, layer_get layers name = create_empty reason.
Proof.
  intros He. unfold layer_get.
  destruct (layers !! name) as [l |] eqn:Hk; [| left; reflexivity].
  destruct (He name l Hk) as [_ [reason ->]]. right. exists reason. reflexivity.
Qed.

Lemma all_empty_not_disqualified (layers : gmap string Layer) :
  all_empty layers -> disqualify (_analyze_structural_patterns layers) = false.
Proof.
  intros He. rewrite analysis_disqualify.
  unfold rule1, rule2, rule3, rule4. cbv zeta.
  destruct (all_empty_layer_get layers "financial_truth" He) as [-> | [r ->]];
    destruct (all_empty_layer_get layers "business_model" He) as [-> | [r' ->]];
    reflexivity.
Qed.

(** No layer of the map has trajectory [t]: the count is 0. *)
Lemma trajectory_count_zero (layers : gmap string Layer) (t : string) :
  map_Forall (fun _ l => trajectory l <> Some t) layers ->
  trajectory_count layers t = 0%nat.
Proof.
  intros Hall. unfold trajectory_count.
  apply map_Forall_to_list in Hall.
  induction Hall as [| [k l] kls Hkl _ IH]; [reflexivity |].
  rewrite filter_cons_False; [exact IH | exact Hkl].
Qed.

Lemma all_empty_trajectory_count (layers : gmap string Layer) (t : string) :
  all_empty layers -> t <> "unknown" -> trajectory_count layers t = 0%nat.
Proof.
  intros He Ht. apply trajectory_count_zero.
  intros k l Hk. destruct (He k l Hk) as [_ [reason ->]]. cbn.
  intros [= Heq]. apply Ht. symmetry. exact Heq.
Qed.

(** The evidence of empty layers leaves the priors as they are. *)
Lemma all_empty_evidence (layers : gmap string Layer) :
  all_empty layers -> evidence_updates layers = priors.
Proof.
  intros He. unfold evidence_updates, update_trajectory. cbv zeta.
  rewrite !all_empty_trajectory_count by (exact He || discriminate).
  unfold when. cbn [Nat.leb].
  destruct (all_empty_layer_get layers "financial_truth" He) as [-> | [r ->]];
    destruct (all_empty_layer_get layers "business_model" He) as [-> | [r' ->]];
    reflexivity.
Qed.

Lemma all_empty_belief (layers : gmap string Layer) (sa : StructuralAnalysis) :
  all_empty layers -> disqualify sa = false ->
  _compute_belief_state layers sa = mkBelief 0.3 0.2 0.05 (1 - 0.3 - 0.2 - 0.05).
Proof.
  intros He Hd. unfold _compute_belief_state, before_normalization,
    force_disqualified. rewrite Hd, (all_empty_evidence layers He). reflexivity.
Qed.

(** Loop invariant on empty layers: every score is 5, so the running total
    is five times the running sum of weights. *)
Lemma score_loop_all_empty
    (layers : gmap string Layer) (weights : gmap string Q)
    (keys : list (string * string)) (acc : ScoreAcc) :
  all_empty layers ->
  weighted_total acc == 5 * weight_sum acc ->
  let acc' := fold_left (score_step layers weights) keys acc in
  weighted_total acc' == 5 * weight_sum acc'.
Proof.
  intros He. revert acc. induction keys as [| km keys IH]; intros acc Hacc.
  - exact Hacc.
  - cbn [fold_left]. apply IH. unfold score_step.
    destruct (layers !! km.1) as [l |] eqn:Hk; [| exact Hacc].
    destruct (He km.1 l Hk) as [_ [reason ->]].
    cbn [weighted_total weight_sum score create_empty default from_option id].
    rewrite Hacc. unfold id. ring.
Qed.

Lemma all_empty_weighted_score
    (layers : gmap string Layer) (weights : gmap string Q) :
  all_empty layers -> (_calculate_weighted_score layers weights).1 == 50.
Proof.
  intros He. unfold _calculate_weighted_score. cbn [fst].
  pose proof (score_loop_all_empty layers weights layer_mapping score_init He)
    as Hinv.
  fold (score_loop layers weights) in Hinv. cbv zeta in Hinv.
  destruct (Qgt_bool (10 * weight_sum (score_loop layers weights)) 0) eqn:Hgt;
    [| reflexivity].
  apply Qgt_bool_iff in Hgt. rewrite Hinv by reflexivity.
  field. lra.
Qed.

(** Rounding to two decimals does not depend on how the rational is
    written. *)
Lemma round2_comp (p q : Q) : p == q -> round2 p = round2 q.
Proof.
  intros Hpq. unfold round2, round_half_even. cbv zeta.
  assert (Qfloor (p * 100) = Qfloor (q * 100)) as Hfloor
      by (apply Qfloor_comp; rewrite Hpq; reflexivity).
  rewrite Hfloor. unfold Qlt_bool.
  assert (forall a b c d, a == b -> c == d -> Qle_bool a c = Qle_bool b d)
    as Hle by (intros a b c d Hab Hcd; apply Qleb_comp; assumption).
  rewrite (Hle 0.5 0.5 (p * 100 - inject_Z (Qfloor (q * 100)))
             (q * 100 - inject_Z (Qfloor (q * 100))))
    by (rewrite ?Hpq; reflexivity).
  rewrite (Hle (p * 100 - inject_Z (Qfloor (q * 100)))
             (q * 100 - inject_Z (Qfloor (q * 100))) 0.5 0.5)
    by (rewrite ?Hpq; reflexivity).
  reflexivity.
Qed.

(** The action resolver at a score of 50 with the prior beliefs. *)
Lemma determine_action_degenerate
    (ws : Q) (sa : StructuralAnalysis) (layers : gmap string Layer) :
  ws == 50 -> disqualify sa = false ->
  _determine_action ws sa (mkBelief 0.3 0.2 0.05 (1 - 0.3 - 0.2 - 0.05)) layers
  = ("AVOID", "SPECULATION_ONLY", WeakCase ws).
Proof.
  intros Hws Hd. unfold _determine_action. rewrite Hd.
  cbn [distress_prob bear_prob bull_prob].
  assert (Qgt_bool 0.05 0.2 = false) as -> by reflexivity.
  assert (Qgt_bool 0.2 0.5 = false) as -> by reflexivity.
  assert (Qgt_bool 0.3 0.6 = false) as -> by reflexivity.
  cbn [andb].
  assert (Qge_bool ws 65 = false) as -> by (apply Qge_bool_false; lra).
  assert (Qge_bool ws 55 = false) as -> by (apply Qge_bool_false; lra).
  assert (Qge_bool ws 40 = true) as -> by (apply Qge_bool_iff; lra).
  reflexivity.
Qed.

(** Synthesis of a layer map of [create_empty] outputs, whatever the keys
    present, the weight table and the sector and industry. *)
Lemma synthesize_all_empty
    (self : SynthesisEngine) (layers : gmap string Layer) (name : string)
    (sector industry : option string) :
  all_empty layers ->
  let r := synthesize self layers name sector industry in
  weighted_score r == 50 /\ conviction r = "AVOID"
  /\ action r = "SPECULATION_ONLY" /\ disqualified r = false.
Proof.
  intros He. cbv zeta. unfold synthesize.
  pose proof (all_empty_weighted_score layers
                (_get_weights self sector industry) He) as Hws.
  pose proof (all_empty_not_disqualified layers He) as Hd.
  destruct (_calculate_weighted_score layers (_get_weights self sector industry))
    as [ws bd]. cbn [fst] in Hws.
  rewrite (all_empty_belief layers _ He Hd).
  rewrite (determine_action_degenerate ws _ layers Hws Hd).
  cbn [weighted_score conviction action disqualified].
  repeat split; try assumption.
  rewrite (round2_comp ws 50 Hws). reflexivity.
Qed.

(** C5.  For a non-empty set of canonical layers that are all
    [create_empty] outputs, with any reasons, and for every weight table,
    sector and industry, [synthesize] returns weighted score 50,
    conviction AVOID and action SPECULATION_ONLY.  The embedding of
    [synthesize] is a total function: no step of it can raise. *)
Theorem synthesize_degenerate_case
    (self : SynthesisEngine) (layers : gmap string Layer) (name : string)
    (sector industry : option string) :
  layers <> ∅ ->
  all_empty layers ->
  let r := synthesize self layers name sector industry in
  weighted_score r == 50 /\ conviction r = "AVOID"
  /\ action r = "SPECULATION_ONLY".
Proof.
  intros _ He. cbv zeta.
  destruct (synthesize_all_empty self layers name sector industry He)
    as (Hws & Hc & Ha & _).
  repeat split; assumption.
Qed.

Lemma synthesize_degenerate_case_witness :
  errored_layers <> ∅ /\ all_empty errored_layers
  /\ conviction (synthesize annotated_engine errored_layers "ACME"
                   (Some "Technology") None) = "AVOID".
Proof.
  assert (errored_layers <> ∅) as Hne.
  { unfold errored_layers. apply insert_non_empty. }
  assert (all_empty errored_layers) as He.
  { unfold all_empty, errored_layers.
    apply map_Forall_insert_2.
    { split; [apply list_elem_of_here | exists "timeout"; reflexivity]. }
    apply map_Forall_insert_2.
    { split; [| exists "No data"; reflexivity].
      do 6 apply list_elem_of_further. apply list_elem_of_here. }
    apply map_Forall_empty. }
  split; [exact Hne | split; [exact He |]].
  apply (synthesize_degenerate_case annotated_engine errored_layers "ACME"
           (Some "Technology") None Hne He).
Defined.

(** ** Weight resolution *)

(** The industry and the sector paths filter the entry they return: no
    key of the result begins with an underscore. *)
Lemma drop_private_lookup (w : gmap string Q) (k : string) :
  String.prefix "_" k = true -> drop_private w !! k = None.
Proof.
  intros Hk. unfold drop_private. apply map_lookup_filter_None. right.
  intros v _ Hfalse. cbn in Hfalse. congruence.
Qed.

Lemma get_weights_named_no_private
    (self : SynthesisEngine) (sector industry : option string) (k : string) :
  is_Some (named_entry self industry) \/ is_Some (named_entry self sector) ->
  String.prefix "_" k = true ->
  _get_weights self sector industry !! k = None.
Proof.
  intros Hnamed Hk. unfold _get_weights.
  destruct (named_entry self industry) as [w |];
    [now apply drop_private_lookup |].
  destruct (named_entry self sector) as [w |];
    [now apply drop_private_lookup |].
  destruct Hnamed as [[? [=]] | [? [=]]].
Qed.

(** C8.  The fallback path returns the default entry as it was loaded,
    without the filter of the two other paths: with a default entry that
    holds the key [_version], the mapping returned for no sector and no
    industry contains that key, which begins with an underscore. *)
Theorem default_weights_not_filtered :
  String.prefix "_" "_version" = true
  /\ _get_weights annotated_engine None None !! "_version" = Some 2
  /\ _get_weights annotated_engine None (Some "Technology") !! "_version" = None.
Proof. vm_compute. repeat split; reflexivity. Qed.

(** ** The temporal delta engine *)

(** The history file of a ticker after one more [save_analysis]. *)
Lemma save_analysis_lookup_same
    (cache : gmap string History) (now : nat -> string) (name : string)
    (analysis : Analysis) (synthesis : SynthesisResult) :
  exists h, save_analysis cache now name analysis synthesis !! name = Some h
            /\ length (analyses h)
               = S (from_option (fun h => length (analyses h)) 0%nat (cache !! name)).
Proof.
  unfold save_analysis. destruct (cache !! name) as [h |] eqn:Hk.
  - eexists. rewrite lookup_insert_eq. split; [reflexivity |].
    cbn. rewrite length_app. cbn. lia.
  - eexists. rewrite lookup_insert_eq. split; [reflexivity |]. reflexivity.
Qed.

Lemma save_analysis_lookup_other
    (cache : gmap string History) (now : nat -> string) (name other : string)
    (analysis : Analysis) (synthesis : SynthesisResult) :
  name <> other ->
  save_analysis cache now name analysis synthesis !! other = cache !! other.
Proof.
  intros Hne. unfold save_analysis.
  destruct (cache !! name); now rewrite lookup_insert_ne.
Qed.

(** Starting from an empty cache directory, a ticker has a history file
    exactly when a snapshot was saved for it, and the file holds as many
    analyses as snapshots were saved. *)
Lemma run_saves_history (calls : list SaveCall) (name : string) :
  match run_saves ∅ calls !! name with
  | None => saved_for name calls = 0%nat
  | Some h => length (analyses h) = saved_for name calls
              /\ (1 <= saved_for name calls)%nat
  end.
Proof.
  induction calls as [| c calls IH] using rev_ind.
  - cbn. rewrite lookup_empty. reflexivity.
  - unfold run_saves, saved_for in *.
    rewrite fold_left_app, filter_app, length_app. cbn [fold_left].
    set (cache := fold_left _ calls ∅) in *.
    destruct (decide (call_ticker c = name)) as [Heq | Hne].
    + subst name. rewrite filter_cons_True by reflexivity. cbn [filter length].
      destruct (save_analysis_lookup_same cache (call_now c) (call_ticker c)
                  (call_analysis c) (call_synthesis c)) as (h & -> & Hlen).
      rewrite Hlen. destruct (cache !! call_ticker c) as [h0 |].
      * destruct IH as [<- _]. cbn. lia.
      * rewrite IH. cbn. lia.
    + rewrite filter_cons_False by exact Hne. cbn [filter length].
      rewrite save_analysis_lookup_other by exact Hne.
      rewrite Nat.add_0_r. exact IH.
Qed.

(** With at least two analyses in the file the result is the deltas of
    the last two. *)
Lemma get_temporal_analysis_deltas
    (cache : gmap string History) (name : string) (h : History) :
  cache !! name = Some h -> (2 <= length (analyses h))%nat ->
  exists d, get_temporal_analysis cache name = Some (Deltas d).
Proof.
  intros Hk Hlen. unfold get_temporal_analysis. rewrite Hk. cbv zeta.
  destruct (Nat.ltb_spec (length (analyses h)) 2) as [Hlt | _]; [lia |].
  destruct (lookup_lt_is_Some_2 (analyses h) (length (analyses h) - 1))
    as [latest ->]; [lia |].
  destruct (lookup_lt_is_Some_2 (analyses h) (length (analyses h) - 2))
    as [previous ->]; [lia |].
  eexists. reflexivity.
Qed.

(** The three outcomes of [get_temporal_analysis], by the number of
    snapshots saved. *)
Lemma get_temporal_analysis_cases (calls : list SaveCall) (name : string) :
  match saved_for name calls with
  | 0%nat => get_temporal_analysis (run_saves ∅ calls) name = None
  | 1%nat => get_temporal_analysis (run_saves ∅ calls) name
             = Some (InsufficientHistory insufficient_note 1)
  | _ => exists d, get_temporal_analysis (run_saves ∅ calls) name
                   = Some (Deltas d)
  end.
Proof.
  pose proof (run_saves_history calls name) as Hinv.
  destruct (run_saves ∅ calls !! name) as [h |] eqn:Hk.
  - destruct Hinv as [Hlen Hpos]. rewrite <- Hlen in *.
    destruct (length (analyses h)) as [| [| n]] eqn:Hn; [lia | |].
    + unfold get_temporal_analysis. rewrite Hk. cbv zeta. rewrite Hn. reflexivity.
    + apply (get_temporal_analysis_deltas _ name h Hk). lia.
  - rewrite Hinv. unfold get_temporal_analysis. now rewrite Hk.
Qed.

(** A delta record is returned only when at least two snapshots were
    saved. *)
Lemma deltas_need_two_snapshots
    (calls : list SaveCall) (name : string) (d : Delta) :
  get_temporal_analysis (run_saves ∅ calls) name = Some (Deltas d) ->
  (2 <= saved_for name calls)%nat.
Proof.
  intros Hd. pose proof (get_temporal_analysis_cases calls name) as H.
  destruct (saved_for name calls) as [| [| n]]; [congruence | congruence | lia].
Qed.

(** C6 (as the code has it).  After any sequence of saves into an empty
    cache directory, [get_temporal_analysis] returns: null for a ticker
    with no saved snapshot; for a ticker with exactly one, the record
    with the note "Insufficient history (need 2+ analyses)" and
    analysis_count 1, which is neither null nor a delta record; and a
    delta record for a ticker with two or more, and only for such a
    ticker. *)
Theorem temporal_analysis_by_snapshot_count
    (calls : list SaveCall) (name : string) :
  match saved_for name calls with
  | 0%nat => get_temporal_analysis (run_saves ∅ calls) name = None
  | 1%nat => get_temporal_analysis (run_saves ∅ calls) name
             = Some (InsufficientHistory insufficient_note 1)
  | _ => exists d, get_temporal_analysis (run_saves ∅ calls) name
                   = Some (Deltas d)
  end
  /\ (forall d, get_temporal_analysis (run_saves ∅ calls) name = Some (Deltas d) ->
                (2 <= saved_for name calls)%nat).
Proof.
  split; [apply get_temporal_analysis_cases |].
  intros d. apply deltas_need_two_snapshots.
Qed.

Lemma temporal_analysis_by_snapshot_count_witness :
  get_temporal_analysis (run_saves ∅ [first_call]) "ACME"
  = Some (InsufficientHistory insufficient_note 1)
  /\ exists d, get_temporal_analysis (run_saves ∅ [first_call; second_call]) "ACME"
               = Some (Deltas d).
Proof.
  split.
  - exact (proj1 (temporal_analysis_by_snapshot_count [first_call] "ACME")).
  - exact (proj1 (temporal_analysis_by_snapshot_count
                    [first_call; second_call] "ACME")).
Defined.

(** C6 as the specification states it fails: with one snapshot saved the
    result is not null. *)
Lemma single_snapshot_not_null :
  saved_for "ACME" [first_call] = 1%nat
  /\ get_temporal_analysis (run_saves ∅ [first_call]) "ACME" <> None.
Proof.
  split; [vm_compute; reflexivity |].
  vm_compute. intros H. discriminate H.
Qed.

(** The layers the two snapshots share give one score change each. *)
Lemma shared_layers_elem
    (latest_layers previous_layers : gmap string Layer) (k : string) (l p : Layer) :
  latest_layers !! k = Some l -> previous_layers !! k = Some p ->
  (k, (l, p)) ∈ shared_layers latest_layers previous_layers.
Proof.
  intros Hl Hp. unfold shared_layers. apply list_elem_of_omap.
  exists (k, l). split; [now apply elem_of_map_to_list |].
  cbn. now rewrite Hp.
Qed.

Lemma score_changes_nonempty
    (latest_layers previous_layers : gmap string Layer) (k : string) (l p : Layer) :
  latest_layers !! k = Some l -> previous_layers !! k = Some p ->
  score_changes latest_layers previous_layers <> [].
Proof.
  intros Hl Hp Hnil.
  pose proof (shared_layers_elem latest_layers previous_layers k l p Hl Hp) as Hin.
  unfold score_changes in Hnil. apply fmap_nil_inv in Hnil.
  rewrite Hnil in Hin. exact (not_elem_of_nil _ Hin).
Qed.

(** The labels of a momentum record, from the mean of the changes. *)
Lemma momentum_of_labels (changes : list Q) :
  changes <> [] ->
  exists m, momentum_of changes = Some m
    /\ (0.5 < average changes -> direction m = "IMPROVING")
    /\ (average changes < -0.5 -> direction m = "DETERIORATING")
    /\ (-0.5 <= average changes <= 0.5 -> direction m = "STABLE")
    /\ (1.0 < average changes -> acceleration m = "ACCELERATING")
    /\ (average changes < -1.0 -> acceleration m = "DECELERATING")
    /\ (-1.0 <= average changes <= 1.0 -> acceleration m = "STEADY").
Proof.
  intros Hne. destruct changes as [| c changes]; [congruence |].
  set (cs := c :: changes) in *. eexists. split; [reflexivity |].
  cbn [direction acceleration].
  destruct (Qgt_bool (average cs) 0.5) eqn:Hhalf;
    destruct (Qlt_bool (average cs) (-0.5)) eqn:Hmhalf;
    destruct (Qgt_bool (average cs) 1.0) eqn:Hone;
    destruct (Qlt_bool (average cs) (-1.0)) eqn:Hmone;
    rewrite ?Qgt_bool_iff, ?Qgt_bool_false, ?Qlt_bool_iff, ?Qlt_bool_false in *;
    repeat split; intros; try reflexivity; exfalso; lra.
Qed.

(** C7 (as the code has it).  For two snapshots that share a layer, with
    avg the mean of the per-layer score deltas, the momentum record has
    direction IMPROVING if avg > 0.5, DETERIORATING if avg < -0.5 and
    STABLE otherwise, and acceleration ACCELERATING if avg > 1.0,
    DECELERATING if avg < -1.0 and STEADY otherwise. *)
Theorem momentum_labels
    (latest previous : Snapshot) (history : History)
    (k : string) (l p : Layer) :
  snap_layers latest !! k = Some l ->
  snap_layers previous !! k = Some p ->
  let avg := average (score_changes (snap_layers latest) (snap_layers previous)) in
  exists m, momentum (_compute_deltas latest previous history) = Some m
    /\ (0.5 < avg -> direction m = "IMPROVING")
    /\ (avg < -0.5 -> direction m = "DETERIORATING")
    /\ (-0.5 <= avg <= 0.5 -> direction m = "STABLE")
    /\ (1.0 < avg -> acceleration m = "ACCELERATING")
    /\ (avg < -1.0 -> acceleration m = "DECELERATING")
    /\ (-1.0 <= avg <= 1.0 -> acceleration m = "STEADY").
Proof.
  intros Hl Hp. cbv zeta. unfold _compute_deltas. cbn [momentum].
  apply momentum_of_labels.
  exact (score_changes_nonempty _ _ k l p Hl Hp).
Qed.

Lemma momentum_labels_witness :
  exists m, momentum (_compute_deltas falling_latest falling_previous falling_history)
            = Some m
    /\ direction m = "DETERIORATING" /\ acceleration m = "DECELERATING".
Proof.
  destruct (momentum_labels falling_latest falling_previous falling_history
              "financial_truth"
              (snapshot_layer
                 (layer 4 "deteriorating" "high" ["HIGH_DEBT_TO_EBITDA"]))
              (snapshot_layer (layer 6 "stable" "minimal" [])))
    as (m & Hm & _ & Hdet & _ & _ & Hdec & _).
  - vm_compute. reflexivity.
  - vm_compute. reflexivity.
  - exists m. split; [exact Hm |]. split.
    + apply Hdet. vm_compute. reflexivity.
    + apply Hdec. vm_compute. reflexivity.
Defined.

(** C7 as the specification states it fails: when the financial score
    falls from 6 to 4 the mean delta is -2, of absolute value above 1.0,
    and the acceleration is DECELERATING, not the ACCELERATING that the
    specification's wording gives. *)
Lemma falling_scores_decelerate :
  average (score_changes (snap_layers falling_latest) (snap_layers falling_previous))
  == -2
  /\ 1.0 < Qabs (average (score_changes (snap_layers falling_latest)
                            (snap_layers falling_previous)))
  /\ (acceleration
        <$> momentum (_compute_deltas falling_latest falling_previous falling_history))
     = Some "DECELERATING"
  /\ spec_acceleration
       (average (score_changes (snap_layers falling_latest)
                   (snap_layers falling_previous)))
     = "ACCELERATING".
Proof. vm_compute. repeat split; reflexivity. Qed.

(** * Further properties *)

(** ** The layer normalizer *)

Lemma any_in_cons (among : list string) (f : string) (flags : list string) :
  any_in among (f :: flags) = bool_decide (f ∈ among) || any_in among flags.
Proof.
  unfold any_in.
  destruct (bool_decide (f ∈ among)) eqn:Hf; cbn [orb].
  - apply bool_decide_eq_true. apply bool_decide_eq_true in Hf.
    now apply Exists_cons_hd.
  - apply bool_decide_eq_false in Hf. apply bool_decide_ext.
    rewrite Exists_cons. tauto.
Qed.

Lemma any_in_spec (among flags : list string) :
  any_in among flags = true <-> exists f, f ∈ flags /\ f ∈ among.
Proof.
  unfold any_in. rewrite bool_decide_eq_true, Exists_exists. reflexivity.
Qed.

(** The scan of the red flags does not depend on their order: a critical
    flag anywhere wins, then a high-risk flag anywhere. *)
Lemma scan_flags_spec (flags : list string) (init : string) :
  scan_flags flags init
  = if any_in critical_flags flags then "critical"
    else if any_in high_risk_flags flags then "high"
    else init.
Proof.
  revert init. induction flags as [| f flags IH]; intros init; [reflexivity |].
  cbn [scan_flags]. rewrite !any_in_cons.
  destruct (bool_decide (f ∈ critical_flags)); [reflexivity |].
  destruct (bool_decide (f ∈ high_risk_flags)); cbn [orb]; rewrite IH.
  - destruct (any_in critical_flags flags); [reflexivity |].
    destruct (any_in high_risk_flags flags); reflexivity.
  - reflexivity.
Qed.

(** X1.  The risk level that [normalize] gives is decided by the set of
    red flags and their number, not by their order: critical when some
    flag is in the critical list; otherwise high when some flag is in the
    high-risk list; otherwise medium with more than three flags, low with
    one to three, and minimal with none. *)
Theorem normalize_risk_level (raw_output : RawOutput) :
  let flags := default [] (r_red_flags raw_output) in
  let level := risk_level (normalize raw_output) in
  let critical := exists f, f ∈ flags /\ f ∈ critical_flags in
  let high := exists f, f ∈ flags /\ f ∈ high_risk_flags in
  (level = Some "critical" <-> critical)
  /\ (level = Some "high" <-> ~ critical /\ high)
  /\ (level = Some "medium" <-> ~ critical /\ ~ high /\ (3 < length flags)%nat)
  /\ (level = Some "low"
      <-> ~ critical /\ ~ high /\ (0 < length flags <= 3)%nat)
  /\ (level = Some "minimal" <-> flags = []).
Proof.
  cbv zeta. unfold normalize. cbn [risk_level]. rewrite scan_flags_spec.
  set (flags := default [] (r_red_flags raw_output)).
  rewrite <- !any_in_spec.
  destruct (any_in critical_flags flags) eqn:Hc.
  { assert (flags <> []) by (intros E; rewrite E in Hc; discriminate Hc).
    cbn. repeat split; intros; try discriminate; try tauto;
      intuition (discriminate || congruence). }
  destruct (any_in high_risk_flags flags) eqn:Hh.
  { assert (flags <> []) by (intros E; rewrite E in Hh; discriminate Hh).
    cbn. repeat split; intros; try discriminate; try tauto;
      intuition (discriminate || congruence). }
  cbn [bool_decide andb]. rewrite bool_decide_eq_true_2 by reflexivity. cbn [andb].
  destruct (Nat.ltb_spec 3 (length flags)) as [H3 | H3].
  { assert (flags <> []) by (intros E; rewrite E in H3; cbn in H3; lia).
    repeat split; intros; try discriminate; try tauto; try lia;
      intuition (discriminate || congruence || lia). }
  destruct (Nat.ltb_spec 0 (length flags)) as [H0 | H0].
  { assert (flags <> []) by (intros E; rewrite E in H0; cbn in H0; lia).
    repeat split; intros; try discriminate; try tauto; try lia;
      intuition (discriminate || congruence || lia). }
  assert (flags = []) by (destruct flags; [reflexivity | cbn in H0; lia]).
  repeat split; intros; try discriminate; try tauto; try lia;
    intuition (discriminate || congruence || lia).
Qed.

(** [len(a) > len(b) * 1.5] in whole numbers: twice the one above three
    times the other. *)
Lemma length_ratio_test {A B} (a : list A) (b : list B) :
  Qgt_bool (Qlen a) (Qlen b * 1.5) = true <-> (3 * length b < 2 * length a)%nat.
Proof.
  rewrite Qgt_bool_iff. unfold Qlen, Qlt, Qmult, inject_Z. cbn. lia.
Qed.

(** X2.  The trajectory that [normalize] gives, in whole numbers of flags
    G (green) and R (red): improving exactly when 2G > 3R, deteriorating
    exactly when 2R > 3G (the two cannot hold together, so the order of
    the two tests does not matter), and otherwise stable for a positive
    score and unknown for a score of 0 or less. *)
Theorem normalize_trajectory (raw_output : RawOutput) :
  let g := length (default [] (r_green_flags raw_output)) in
  let r := length (default [] (r_red_flags raw_output)) in
  let t := trajectory (normalize raw_output) in
  (t = Some "improving" <-> (3 * r < 2 * g)%nat)
  /\ (t = Some "deteriorating" <-> (3 * g < 2 * r)%nat)
  /\ (t = Some "stable"
      <-> (2 * g <= 3 * r)%nat /\ (2 * r <= 3 * g)%nat
          /\ 0 < default 5 (r_score raw_output))
  /\ (t = Some "unknown"
      <-> (2 * g <= 3 * r)%nat /\ (2 * r <= 3 * g)%nat
          /\ default 5 (r_score raw_output) <= 0).
Proof.
  cbv zeta. unfold normalize. cbn [trajectory].
  set (green := default [] (r_green_flags raw_output)).
  set (red := default [] (r_red_flags raw_output)).
  pose proof (length_ratio_test green red) as Hg.
  pose proof (length_ratio_test red green) as Hr.
  destruct (Qgt_bool (Qlen green) (Qlen red * 1.5)).
  { assert (3 * length red < 2 * length green)%nat by (apply Hg; reflexivity).
    repeat split; intros; try discriminate; try lia;
      intuition (discriminate || lia). }
  assert (~ (3 * length red < 2 * length green)%nat)
    by (intros H; apply Hg in H; discriminate H).
  destruct (Qgt_bool (Qlen red) (Qlen green * 1.5)).
  { assert (3 * length green < 2 * length red)%nat by (apply Hr; reflexivity).
    repeat split; intros; try discriminate; try lia;
      intuition (discriminate || lia). }
  assert (~ (3 * length green < 2 * length red)%nat)
    by (intros H'; apply Hr in H'; discriminate H').
  destruct (Qgt_bool (default 5 (r_score raw_output)) 0) eqn:Hs.
  - apply Qgt_bool_iff in Hs.
    repeat split; intros; try discriminate; try lia; try assumption;
      intuition (discriminate || lia || lra).
  - apply Qgt_bool_false in Hs.
    repeat split; intros; try discriminate; try lia; try assumption;
      intuition (discriminate || lia || lra).
Qed.

(** ** From analyzer outputs to the verdict *)

(** A critical red flag makes the normalized layer critical. *)
Lemma normalize_critical (raw_output : RawOutput) (f : string) :
  f ∈ default [] (r_red_flags raw_output) -> f ∈ critical_flags ->
  risk_level (normalize raw_output) = Some "critical".
Proof.
  intros Hin Hcrit. unfold normalize. cbn [risk_level]. rewrite scan_flags_spec.
  assert (any_in critical_flags (default [] (r_red_flags raw_output)) = true)
    as -> by (apply any_in_spec; eauto).
  reflexivity.
Qed.

(** The verdict of [synthesize] on a disqualified analysis. *)
Lemma synthesize_when_disqualified
    (self : SynthesisEngine) (layers : gmap string Layer) (name : string)
    (sector industry : option string) :
  disqualify (_analyze_structural_patterns layers) = true ->
  let r := synthesize self layers name sector industry in
  disqualified r = true /\ conviction r = "AVOID" /\ action r = "DO_NOT_TRADE"
  /\ reasoning r = StructuralDisqualifiers (override_rules r).
Proof.
  intros Hd. cbv zeta. unfold synthesize.
  destruct (_calculate_weighted_score layers (_get_weights self sector industry))
    as [ws bd].
  unfold _determine_action. rewrite Hd. cbn. repeat split; reflexivity.
Qed.

(** X3.  Analyzer outputs in which the financial layer reports
    NEGATIVE_FREE_CASH_FLOW and the management layer reports
    INSIDER_HEAVY_SELLING (neither with an error key) are always
    disqualified once normalized: the flag alone makes the financial layer
    critical, override rule 1 fires, and [synthesize] answers AVOID /
    DO_NOT_TRADE whatever the scores, the other layers, the weights, the
    sector and the industry. *)
Theorem distress_with_insider_selling_is_avoided
    (self : SynthesisEngine) (raws : gmap string RawOutput)
    (financial management : RawOutput) (name : string)
    (sector industry : option string) :
  raws !! "financial_truth" = Some financial ->
  r_error financial = None ->
  "NEGATIVE_FREE_CASH_FLOW" ∈ default [] (r_red_flags financial) ->
  raws !! "management" = Some management ->
  r_error management = None ->
  "INSIDER_HEAVY_SELLING" ∈ default [] (r_red_flags management) ->
  let r := synthesize self (normalize_layers raws) name sector industry in
  disqualified r = true /\ conviction r = "AVOID" /\ action r = "DO_NOT_TRADE"
  /\ msg_rule1 ∈ override_rules r.
Proof.
  intros Hf Hfe Hfcf Hm Hme Hsell. cbv zeta.
  assert (rule1 (normalize_layers raws) = true) as H1.
  { unfold rule1, layer_get, normalize_layers. cbv zeta.
    rewrite !lookup_fmap, Hf, Hm. cbn [fmap option_fmap option_map].
    unfold normalize_layer. rewrite Hfe, Hme.
    change (risk_level_in (normalize financial) ["critical"; "high"]
            && has_risk_flag "NEGATIVE_FREE_CASH_FLOW" (normalize financial)
            && has_risk_flag "INSIDER_HEAVY_SELLING" (normalize management) = true).
    unfold risk_level_in, has_risk_flag.
    rewrite (normalize_critical financial "NEGATIVE_FREE_CASH_FLOW" Hfcf)
      by apply list_elem_of_here.
    rewrite !andb_true_iff, !bool_decide_eq_true. repeat split.
    - apply list_elem_of_here.
    - exact Hfcf.
    - exact Hsell. }
  assert (disqualify (_analyze_structural_patterns (normalize_layers raws)) = true)
    as Hd by (rewrite analysis_disqualify, H1; reflexivity).
  destruct (synthesize_when_disqualified self (normalize_layers raws) name
              sector industry Hd) as (Hdis & Hc & Ha & _).
  repeat split; try assumption.
  unfold synthesize.
  destruct (_calculate_weighted_score _ _) as [ws bd].
  destruct (_determine_action _ _ _ _) as [[c a] rs]. cbn [override_rules].
  rewrite analysis_overrides, H1. apply list_elem_of_here.
Qed.

Lemma distress_with_insider_selling_is_avoided_witness :
  action (synthesize annotated_engine (normalize_layers bailing_raw) "ACME"
            (Some "Technology") None) = "DO_NOT_TRADE".
Proof.
  apply (distress_with_insider_selling_is_avoided annotated_engine bailing_raw
           (raw 7 ["NEGATIVE_FREE_CASH_FLOW"] [])
           (raw 6 ["INSIDER_HEAVY_SELLING"] []) "ACME" (Some "Technology") None).
  - vm_compute. reflexivity.
  - reflexivity.
  - apply list_elem_of_here.
  - vm_compute. reflexivity.
  - reflexivity.
  - apply list_elem_of_here.
Defined.

(** ** The scoring loop as a sum *)

Lemma Qsum_from (l : list Q) (a : Q) : fold_left Qplus l a == a + Qsum l.
Proof.
  unfold Qsum. revert a. induction l as [| x l IH]; intros a; cbn [fold_left].
  - ring.
  - rewrite (IH (a + x)), (IH (0 + x)). ring.
Qed.

Lemma Qsum_cons (x : Q) (l : list Q) : Qsum (x :: l) == x + Qsum l.
Proof. unfold Qsum. cbn [fold_left]. rewrite Qsum_from. unfold Qsum. ring. Qed.

(** What the loop adds to its two numeric accumulators over any list of
    keys. *)
Lemma score_fold_sums
    (layers : gmap string Layer) (weights : gmap string Q)
    (keys : list (string * string)) (acc : ScoreAcc) :
  let pairs :=
    omap (fun km : string * string =>
            (fun layer_data : Layer =>
               (default 5 (score layer_data), default 1.0 (weights !! km.2)))
              <$> layers !! km.1) keys in
  let acc' := fold_left (score_step layers weights) keys acc in
  weighted_total acc' == weighted_total acc + Qsum ((fun sw => sw.1 * sw.2) <$> pairs)
  /\ weight_sum acc' == weight_sum acc + Qsum (pairs.*2).
Proof.
  cbv zeta. revert acc. induction keys as [| km keys IH]; intros acc.
  - cbn. unfold Qsum. cbn. split; ring.
  - cbn [fold_left omap list_omap]. destruct (IH (score_step layers weights acc km))
      as [IHt IHs]. rewrite IHt, IHs. unfold score_step.
    destruct (layers !! km.1) as [l |]; cbn [fmap option_fmap option_map].
    + cbn [weighted_total weight_sum fmap list_fmap fst snd].
      rewrite !Qsum_cons. cbn [fst snd]. unfold fmap. split; ring.
    + split; reflexivity.
Qed.

(** X4.  The scoring loop computes the closed formula: with (s, w) the
    score (5 if absent) and the weight (1.0 if absent) of each canonical
    layer present, the weighted score is sum(s x w) / (10 x sum(w)) x 100
    when sum(w) is positive, and it is 50 when sum(w) is zero or
    negative. *)
Theorem weighted_score_closed_form
    (layers : gmap string Layer) (weights : gmap string Q) :
  let pairs := resolved layers weights in
  let ws := (_calculate_weighted_score layers weights).1 in
  (0 < Qsum (pairs.*2) -> ws == score_formula pairs)
  /\ (Qsum (pairs.*2) <= 0 -> ws = 50).
Proof.
  cbv zeta. unfold _calculate_weighted_score, score_formula. cbn [fst].
  destruct (score_fold_sums layers weights layer_mapping score_init) as [Ht Hs].
  fold (score_loop layers weights) in Ht, Hs. fold (resolved layers weights) in Ht, Hs.
  cbn [weighted_total weight_sum score_init] in Ht, Hs.
  rewrite Qplus_0_l in Ht, Hs.
  split; intros Hsum.
  - assert (Qgt_bool (10 * weight_sum (score_loop layers weights)) 0 = true) as ->
      by (apply Qgt_bool_iff; rewrite Hs; lra).
    rewrite Ht, Hs. reflexivity.
  - assert (Qgt_bool (10 * weight_sum (score_loop layers weights)) 0 = false) as ->
      by (apply Qgt_bool_false; rewrite Hs; lra).
    reflexivity.
Qed.

Lemma weighted_score_closed_form_witness :
  (_calculate_weighted_score two_layers software_weights).1
  == score_formula [(8, 4); (7, 0.5)].
Proof.
  apply (weighted_score_closed_form two_layers software_weights).
  vm_compute. reflexivity.
Defined.

(** The loop never looks at a layer outside the keys it walks. *)
Lemma score_fold_insert_other
    (layers : gmap string Layer) (weights : gmap string Q)
    (k : string) (l : Layer) (keys : list (string * string)) (acc : ScoreAcc) :
  (forall km, km ∈ keys -> km.1 <> k) ->
  fold_left (score_step (<[k := l]> layers) weights) keys acc
  = fold_left (score_step layers weights) keys acc.
Proof.
  revert acc. induction keys as [| km keys IH]; intros acc Hne; [reflexivity |].
  cbn [fold_left].
  assert (score_step (<[k := l]> layers) weights acc km
          = score_step layers weights acc km) as ->.
  { unfold score_step. rewrite lookup_insert_ne; [reflexivity |].
    intros E. apply (Hne km); [apply list_elem_of_here | now symmetry]. }
  apply IH. intros km' Hin. apply Hne. now apply list_elem_of_further.
Qed.

(** X5.  A layer stored under a name that is not one of the seven
    canonical names (such as the technical placeholder) has no effect on
    the weighted score nor on its breakdown. *)
Theorem weighted_score_ignores_other_layers
    (layers : gmap string Layer) (weights : gmap string Q)
    (k : string) (l : Layer) :
  k ∉ canonical_names ->
  _calculate_weighted_score (<[k := l]> layers) weights
  = _calculate_weighted_score layers weights.
Proof.
  intros Hk. unfold _calculate_weighted_score, score_loop.
  rewrite score_fold_insert_other; [reflexivity |].
  intros km Hin E. apply Hk. unfold canonical_names. rewrite <- E.
  now apply list_elem_of_fmap_2.
Qed.

Lemma weighted_score_ignores_other_layers_witness :
  _calculate_weighted_score
    (<["technical" := layer 0 "unknown" "minimal" []]> two_layers) software_weights
  = _calculate_weighted_score two_layers software_weights.
Proof.
  apply (weighted_score_ignores_other_layers two_layers software_weights
           "technical" (layer 0 "unknown" "minimal" [])).
  unfold canonical_names. cbn. intros H.
  repeat (apply elem_of_cons in H as [H | H]; [discriminate H |]).
  now apply not_elem_of_nil in H.
Defined.

(** The sum of weights is never negative with positive weights, and it is
    positive as soon as one walked key is present. *)
Lemma score_fold_weight_sum
    (layers : gmap string Layer) (weights : gmap string Q)
    (keys : list (string * string)) (acc : ScoreAcc) :
  positive_weights weights -> 0 <= weight_sum acc ->
  let acc' := fold_left (score_step layers weights) keys acc in
  0 <= weight_sum acc'
  /\ (0 < weight_sum acc \/ (exists km, km ∈ keys /\ is_Some (layers !! km.1))
      -> 0 < weight_sum acc').
Proof.
  intros Hw. cbv zeta. revert acc.
  induction keys as [| km keys IH]; intros acc Hacc.
  - cbn. split; [exact Hacc |]. intros [H | (km & Hin & _)]; [exact H |].
    now apply not_elem_of_nil in Hin.
  - cbn [fold_left].
    pose proof (resolved_weight_positive weights km.2 Hw) as Hpos.
    assert (0 <= weight_sum (score_step layers weights acc km)) as Hstep.
    { unfold score_step. destruct (layers !! km.1); cbn [weight_sum]; lra. }
    destruct (IH _ Hstep) as [IH0 IHpos]. split; [exact IH0 |].
    intros Hsome. apply IHpos.
    destruct Hsome as [Hlt | (km' & Hin & Hpresent)].
    + left. unfold score_step. destruct (layers !! km.1); cbn [weight_sum]; lra.
    + apply elem_of_cons in Hin as [-> | Hin].
      * left. unfold score_step. destruct Hpresent as [l ->]. cbn [weight_sum]. lra.
      * right. exists km'. split; assumption.
Qed.

Lemma score_fold_uniform
    (layers : gmap string Layer) (weights : gmap string Q) (s : Q)
    (keys : list (string * string)) (acc : ScoreAcc) :
  (forall km l, km ∈ keys -> layers !! km.1 = Some l -> default 5 (score l) == s) ->
  weighted_total acc == s * weight_sum acc ->
  let acc' := fold_left (score_step layers weights) keys acc in
  weighted_total acc' == s * weight_sum acc'.
Proof.
  cbv zeta. revert acc. induction keys as [| km keys IH]; intros acc Hs Hacc.
  - exact Hacc.
  - cbn [fold_left]. apply IH.
    + intros km' l Hin. apply Hs. now apply list_elem_of_further.
    + unfold score_step. destruct (layers !! km.1) as [l |] eqn:Hk; [| exact Hacc].
      cbn [weighted_total weight_sum].
      rewrite (Hs km l (list_elem_of_here _ _) Hk), Hacc. ring.
Qed.

(** The keys the scorer walks are the canonical names, each with its own
    name as weight key. *)
Lemma layer_mapping_keys (km : string * string) :
  km ∈ layer_mapping -> km.1 ∈ canonical_names /\ km.2 = km.1.
Proof.
  intros Hin. split.
  - unfold canonical_names. now apply list_elem_of_fmap_2.
  - unfold layer_mapping in Hin.
    repeat (apply elem_of_cons in Hin as [-> | Hin]; [reflexivity |]).
    now apply not_elem_of_nil in Hin.
Qed.

Lemma canonical_in_mapping (k : string) :
  k ∈ canonical_names -> (k, k) ∈ layer_mapping.
Proof.
  unfold canonical_names. intros Hin.
  apply list_elem_of_fmap in Hin as ([k1 k2] & -> & Hin).
  destruct (layer_mapping_keys _ Hin) as [_ E]. cbn in E. subst k2. exact Hin.
Qed.

(** X6.  Over exact arithmetic: when every canonical layer present has the
    same score s, the weighted score computed without rounding is 10 x s,
    whatever the (positive) weights.  (In binary64 the result can miss
    10 x s by a rounding error: see [binary64_unanimous_score].) *)
Theorem weighted_score_of_unanimous_layers
    (layers : gmap string Layer) (weights : gmap string Q) (s : Q)
    (k : string) (l : Layer) :
  positive_weights weights ->
  k ∈ canonical_names -> layers !! k = Some l ->
  (forall k' l', k' ∈ canonical_names -> layers !! k' = Some l' ->
                 default 5 (score l') == s) ->
  (_calculate_weighted_score layers weights).1 == 10 * s.
Proof.
  intros Hw Hk Hl Hs. unfold _calculate_weighted_score. cbn [fst].
  destruct (score_fold_weight_sum layers weights layer_mapping score_init Hw)
    as [_ Hpos]; [cbn; lra |].
  pose proof (score_fold_uniform layers weights s layer_mapping score_init) as Hu.
  cbv zeta in Hu. fold (score_loop layers weights) in Hpos, Hu.
  assert (0 < weight_sum (score_loop layers weights)) as Hsum.
  { apply Hpos. right. exists (k, k). split; [now apply canonical_in_mapping |].
    cbn. rewrite Hl. eauto. }
  assert (Qgt_bool (10 * weight_sum (score_loop layers weights)) 0 = true) as ->
    by (apply Qgt_bool_iff; lra).
  rewrite Hu.
  - field. lra.
  - intros km l' Hin. apply Hs. now apply layer_mapping_keys.
  - cbn. ring.
Qed.

Lemma weighted_score_of_unanimous_layers_witness :
  (_calculate_weighted_score
     (<["business_model" := layer 7 "stable" "minimal" []]>
        (<["risk" := layer 7 "stable" "minimal" []]> ∅))
     software_weights).1 == 10 * 7.
Proof.
  apply (weighted_score_of_unanimous_layers _ software_weights 7 "business_model"
           (layer 7 "stable" "minimal" [])).
  - unfold positive_weights, software_weights.
    apply map_Forall_insert_2; [lra |].
    apply map_Forall_insert_2; [lra |].
    apply map_Forall_empty.
  - apply list_elem_of_here.
  - vm_compute. reflexivity.
  - intros k' l' _ Hl'.
    apply lookup_insert_Some in Hl' as [[_ <-] | [_ Hl']]; [reflexivity |].
    apply lookup_insert_Some in Hl' as [[_ <-] | [_ Hl']]; [reflexivity |].
    now rewrite lookup_empty in Hl'.
Defined.

(** In binary64 a unanimous score can be missed by a rounding error: two
    layers that score 6.5, with weights 1.1 and 2.5, give
    64.999999999999986 and not 65. *)
Lemma binary64_unanimous_score :
  Binary64._calculate_weighted_score Binary64.unanimous_scores
    Binary64.unanimous_weights = 64.999999999999986%float
  /\ PrimFloat.ltb
       (Binary64._calculate_weighted_score Binary64.unanimous_scores
          Binary64.unanimous_weights) 65 = true.
Proof. vm_compute. split; reflexivity. Qed.

(** Raising the score of one layer: the two runs of the loop add the same
    weights, and the second adds no less to the total. *)
Lemma score_fold_monotone
    (layers : gmap string Layer) (weights : gmap string Q)
    (k : string) (l l' : Layer)
    (keys : list (string * string)) (acc acc' : ScoreAcc) :
  positive_weights weights ->
  layers !! k = Some l ->
  default 5 (score l) <= default 5 (score l') ->
  weight_sum acc == weight_sum acc' ->
  weighted_total acc <= weighted_total acc' ->
  let a := fold_left (score_step layers weights) keys acc in
  let a' := fold_left (score_step (<[k := l']> layers) weights) keys acc' in
  weight_sum a == weight_sum a' /\ weighted_total a <= weighted_total a'.
Proof.
  intros Hw Hl Hle. cbv zeta. revert acc acc'.
  induction keys as [| km keys IH]; intros acc acc' Hsum Htot.
  - cbn. split; assumption.
  - cbn [fold_left].
    pose proof (resolved_weight_positive weights km.2 Hw) as Hpos.
    apply IH; unfold score_step.
    + destruct (decide (km.1 = k)) as [-> | Hne].
      * rewrite Hl, lookup_insert_eq. cbn [weight_sum]. rewrite Hsum. reflexivity.
      * rewrite lookup_insert_ne by congruence.
        destruct (layers !! km.1); cbn [weight_sum]; [rewrite Hsum |]; easy.
    + destruct (decide (km.1 = k)) as [-> | Hne].
      * rewrite Hl, lookup_insert_eq. cbn [weighted_total].
        assert (default 5 (score l) * default 1.0 (weights !! km.2)
                <= default 5 (score l') * default 1.0 (weights !! km.2))
          by (apply Qmult_le_compat_r; lra).
        lra.
      * rewrite lookup_insert_ne by congruence.
        destruct (layers !! km.1); cbn [weighted_total]; lra.
Qed.

(** X7.  With positive weights the weighted score is monotone in each
    layer: replacing a layer by one with a score at least as high never
    lowers the weighted score. *)
Theorem weighted_score_monotone
    (layers : gmap string Layer) (weights : gmap string Q)
    (k : string) (l l' : Layer) :
  positive_weights weights ->
  layers !! k = Some l ->
  default 5 (score l) <= default 5 (score l') ->
  (_calculate_weighted_score layers weights).1
  <= (_calculate_weighted_score (<[k := l']> layers) weights).1.
Proof.
  intros Hw Hl Hle. unfold _calculate_weighted_score. cbn [fst].
  destruct (score_fold_monotone layers weights k l l' layer_mapping
              score_init score_init Hw Hl Hle) as [Hsum Htot];
    [reflexivity | cbn; lra |].
  fold (score_loop layers weights) in Hsum, Htot.
  fold (score_loop (<[k := l']> layers) weights) in Hsum, Htot.
  set (a := score_loop layers weights) in *.
  set (a' := score_loop (<[k := l']> layers) weights) in *.
  destruct (Qgt_bool (10 * weight_sum a) 0) eqn:Hgt.
  - apply Qgt_bool_iff in Hgt.
    assert (Qgt_bool (10 * weight_sum a') 0 = true) as ->
      by (apply Qgt_bool_iff; rewrite <- Hsum; exact Hgt).
    rewrite <- Hsum. apply Qmult_le_compat_r; [| lra].
    unfold Qdiv. apply Qmult_le_compat_r; [exact Htot |].
    apply Qinv_le_0_compat. lra.
  - apply Qgt_bool_false in Hgt.
    assert (Qgt_bool (10 * weight_sum a') 0 = false) as ->
      by (apply Qgt_bool_false; rewrite <- Hsum; exact Hgt).
    lra.
Qed.

Lemma weighted_score_monotone_witness :
  (_calculate_weighted_score two_layers software_weights).1
  <= (_calculate_weighted_score
        (<["financial_truth" := layer 9 "stable" "minimal" []]> two_layers)
        software_weights).1.
Proof.
  apply (weighted_score_monotone two_layers software_weights "financial_truth"
           (layer 7 "stable" "minimal" []) (layer 9 "stable" "minimal" [])).
  - unfold positive_weights, software_weights.
    apply map_Forall_insert_2; [lra |].
    apply map_Forall_insert_2; [lra |].
    apply map_Forall_empty.
  - vm_compute. reflexivity.
  - cbn. lra.
Defined.

(** Scaling every weight by [c] scales both accumulators by [c]. *)
Lemma score_fold_scaled
    (layers : gmap string Layer) (weights : gmap string Q) (c : Q)
    (keys : list (string * string)) (acc acc' : ScoreAcc) :
  (forall km l, km ∈ keys -> layers !! km.1 = Some l -> is_Some (weights !! km.2)) ->
  weight_sum acc' == c * weight_sum acc ->
  weighted_total acc' == c * weighted_total acc ->
  let a := fold_left (score_step layers weights) keys acc in
  let a' := fold_left (score_step layers (Qmult c <$> weights)) keys acc' in
  weight_sum a' == c * weight_sum a /\ weighted_total a' == c * weighted_total a.
Proof.
  cbv zeta. revert acc acc'.
  induction keys as [| km keys IH]; intros acc acc' Hcover Hsum Htot.
  - cbn. split; assumption.
  - cbn [fold_left].
    assert (forall km' l, km' ∈ keys -> layers !! km'.1 = Some l ->
                          is_Some (weights !! km'.2)) as Hcover'
        by (intros km' l Hin; apply Hcover; now apply list_elem_of_further).
    apply (IH _ _ Hcover'); unfold score_step;
      destruct (layers !! km.1) as [l |] eqn:Hk; try assumption;
      destruct (Hcover km l (list_elem_of_here _ _) Hk) as [w Hw];
      rewrite lookup_fmap, Hw; cbn [fmap option_fmap option_map default from_option];
      cbn [weight_sum weighted_total]; unfold id.
    + rewrite Hsum. ring.
    + rewrite Htot. ring.
Qed.

(** X8.  Over exact arithmetic only the proportions of the weights
    matter: multiplying every weight by the same positive factor leaves
    the weighted score computed without rounding unchanged, provided each
    canonical layer present has a weight of its own in the map (an absent
    weight is read as 1.0 and is not scaled).  (In binary64 the two
    results can differ by a rounding error: see
    [binary64_scaled_weights].) *)
Theorem weighted_score_scale_invariant
    (layers : gmap string Layer) (weights : gmap string Q) (c : Q) :
  0 < c ->
  (forall k l, k ∈ canonical_names -> layers !! k = Some l ->
               is_Some (weights !! k)) ->
  (_calculate_weighted_score layers (Qmult c <$> weights)).1
  == (_calculate_weighted_score layers weights).1.
Proof.
  intros Hc Hcover. unfold _calculate_weighted_score. cbn [fst].
  destruct (score_fold_scaled layers weights c layer_mapping score_init score_init)
    as [Hsum Htot].
  { intros km l Hin Hl. destruct (layer_mapping_keys km Hin) as [Hcan ->].
    now apply (Hcover km.1 l). }
  { cbn. ring. }
  { cbn. ring. }
  fold (score_loop layers weights) in Hsum, Htot.
  fold (score_loop layers (Qmult c <$> weights)) in Hsum, Htot.
  set (a := score_loop layers weights) in *.
  set (a' := score_loop layers (Qmult c <$> weights)) in *.
  destruct (Qgt_bool (10 * weight_sum a) 0) eqn:Hgt.
  - apply Qgt_bool_iff in Hgt.
    assert (0 < c * weight_sum a) by (apply Qmult_lt_0_compat; lra).
    assert (Qgt_bool (10 * weight_sum a') 0 = true) as ->
      by (apply Qgt_bool_iff; rewrite Hsum; lra).
    rewrite Hsum, Htot. field. split; lra.
  - apply Qgt_bool_false in Hgt.
    assert (c * weight_sum a <= c * 0)
      by (apply Qmult_le_l; [exact Hc | lra]).
    assert (Qgt_bool (10 * weight_sum a') 0 = false) as ->
      by (apply Qgt_bool_false; rewrite Hsum; lra).
    reflexivity.
Qed.

Lemma weighted_score_scale_invariant_witness :
  (_calculate_weighted_score two_layers (Qmult 3 <$> software_weights)).1
  == (_calculate_weighted_score two_layers software_weights).1.
Proof.
  apply (weighted_score_scale_invariant two_layers software_weights 3).
  - lra.
  - intros k l _ Hl. unfold two_layers in Hl.
    apply lookup_insert_Some in Hl as [[<- _] | [_ Hl]];
      [vm_compute; eauto |].
    apply lookup_insert_Some in Hl as [[<- _] | [_ Hl]];
      [vm_compute; eauto |].
    now rewrite lookup_empty in Hl.
Defined.

(** In binary64 the scaled weights can give another last digit: scores 0
    and 9 with weights 0.1 and 0.2 give 60, and 59.999999999999986 once
    both weights are multiplied by 3. *)
Lemma binary64_scaled_weights :
  Binary64._calculate_weighted_score Binary64.uneven_scores
    Binary64.small_weights = 60%float
  /\ Binary64._calculate_weighted_score Binary64.uneven_scores
       Binary64.tripled_weights = 59.999999999999986%float.
Proof. vm_compute. split; reflexivity. Qed.

(** ** Rounding to two decimals *)

(** Rounding to the nearest integer moves a number by at most one half and
    keeps it between any two integers it lies between. *)
Lemma round_half_even_close (q : Q) :
  Qabs (inject_Z (round_half_even q) - q) <= 0.5.
Proof.
  unfold round_half_even. cbv zeta.
  pose proof (Qfloor_le q) as Hlo. pose proof (Qlt_floor q) as Hhi.
  rewrite inject_Z_plus in Hhi. change (inject_Z 1) with 1 in Hhi.
  apply Qabs_Qle_condition.
  destruct (Qlt_bool (q - inject_Z (Qfloor q)) 0.5) eqn:H1.
  { apply Qlt_bool_iff in H1. split; lra. }
  apply Qlt_bool_false in H1.
  destruct (Qlt_bool 0.5 (q - inject_Z (Qfloor q))) eqn:H2.
  { apply Qlt_bool_iff in H2. rewrite inject_Z_plus.
    change (inject_Z 1) with 1. split; lra. }
  apply Qlt_bool_false in H2.
  destruct (Z.even (Qfloor q)).
  - split; lra.
  - rewrite inject_Z_plus. change (inject_Z 1) with 1. split; lra.
Qed.

Lemma round_half_even_between (q : Q) (a b : Z) :
  inject_Z a <= q <= inject_Z b -> (a <= round_half_even q <= b)%Z.
Proof.
  intros [Ha Hb].
  assert (a <= Qfloor q)%Z as Hfa
      by (rewrite <- (Qfloor_Z a); now apply Qfloor_resp_le).
  assert (Qfloor q <= b)%Z as Hfb
      by (rewrite <- (Qfloor_Z b); now apply Qfloor_resp_le).
  pose proof (Qfloor_le q) as Hlo.
  unfold round_half_even. cbv zeta.
  assert (0.5 <= q - inject_Z (Qfloor q) -> (Qfloor q + 1 <= b)%Z) as Hup.
  { intros Hfrac. destruct (Z.eq_dec (Qfloor q) b) as [E | E]; [| lia].
    rewrite E in Hfrac. lra. }
  destruct (Qlt_bool (q - inject_Z (Qfloor q)) 0.5) eqn:H1; [lia |].
  apply Qlt_bool_false in H1. specialize (Hup H1).
  destruct (Qlt_bool 0.5 (q - inject_Z (Qfloor q))); [lia |].
  destruct (Z.even (Qfloor q)); lia.
Qed.

Lemma round2_close (q : Q) : Qabs (round2 q - q) <= 0.005.
Proof.
  unfold round2. pose proof (round_half_even_close (q * 100)) as H.
  apply Qabs_Qle_condition in H. apply Qabs_Qle_condition.
  set (n := inject_Z (round_half_even (q * 100))) in *.
  assert (n / 100 == n * 0.01) as -> by (field; lra).
  split; lra.
Qed.

Lemma round2_between (q : Q) (a b : Z) :
  inject_Z a <= q <= inject_Z b -> inject_Z a <= round2 q <= inject_Z b.
Proof.
  intros [Ha Hb]. unfold round2.
  destruct (round_half_even_between (q * 100) (a * 100) (b * 100)) as [Hlo Hhi].
  { rewrite !inject_Z_mult. change (inject_Z 100) with 100. split; lra. }
  rewrite Zle_Qle in Hlo, Hhi.
  rewrite inject_Z_mult in Hlo, Hhi. change (inject_Z 100) with 100 in Hlo, Hhi.
  set (n := inject_Z (round_half_even (q * 100))) in *.
  assert (n / 100 == n * 0.01) as -> by (field; lra).
  split; lra.
Qed.

(** The exact weighted score is in [[0,100]] for scores in [[0,10]] and
    positive weights. *)
Lemma exact_weighted_score_range
    (layers : gmap string Layer) (weights : gmap string Q) :
  scores_in_range layers -> positive_weights weights ->
  0 <= (_calculate_weighted_score layers weights).1 <= 100.
Proof.
  intros Hs Hw. unfold _calculate_weighted_score. cbn [fst].
  destruct (score_loop_invariant layers weights layer_mapping score_init Hs Hw)
    as (Hsum & Htot); [cbn; lra | cbn; lra |].
  fold (score_loop layers weights) in Hsum, Htot.
  destruct (Qgt_bool (10 * weight_sum (score_loop layers weights)) 0) eqn:Hgt;
    [| lra].
  apply Qgt_bool_iff in Hgt.
  destruct (fraction_unit (weighted_total (score_loop layers weights))
              (10 * weight_sum (score_loop layers weights)))
    as [Hlo Hhi]; [lra | lra | lra |].
  lra.
Qed.

(** X9.  Over exact arithmetic the weighted score that [synthesize]
    reports is the score rounded to two decimals: it is a whole number of
    hundredths, it is within 0.005 of the score before rounding and, for
    scores in [[0,10]] and positive resolved weights, it still lies in
    [[0,100]]. *)
Theorem reported_score_is_rounded
    (self : SynthesisEngine) (layers : gmap string Layer) (name : string)
    (sector industry : option string) :
  scores_in_range layers ->
  positive_weights (_get_weights self sector industry) ->
  let r := synthesize self layers name sector industry in
  let exact :=
    (_calculate_weighted_score layers (_get_weights self sector industry)).1 in
  0 <= weighted_score r <= 100
  /\ Qabs (weighted_score r - exact) <= 0.005
  /\ exists hundredths : Z, weighted_score r == inject_Z hundredths / 100.
Proof.
  intros Hs Hw. cbv zeta. unfold synthesize.
  pose proof (exact_weighted_score_range layers _ Hs Hw) as Hrange.
  destruct (_calculate_weighted_score layers (_get_weights self sector industry))
    as [ws bd]. cbn [fst] in *.
  destruct (_determine_action _ _ _ _) as [[c a] rs]. cbn [weighted_score].
  split; [| split; [apply round2_close |]].
  - apply (round2_between ws 0 100). exact Hrange.
  - exists (round_half_even (ws * 100)). unfold round2. reflexivity.
Qed.

Lemma reported_score_is_rounded_witness :
  0 <= weighted_score (synthesize annotated_engine two_layers "ACME"
                         (Some "Technology") None) <= 100.
Proof.
  assert (scores_in_range two_layers) as Hs.
  { unfold scores_in_range, two_layers.
    apply map_Forall_insert_2; [intros s [= <-]; lra |].
    apply map_Forall_insert_2; [intros s [= <-]; lra |].
    apply map_Forall_empty. }
  assert (positive_weights (_get_weights annotated_engine (Some "Technology") None))
    as Hw.
  { assert (_get_weights annotated_engine (Some "Technology") None
            = <["business_model" := 4]> ∅) as -> by (vm_compute; reflexivity).
    apply map_Forall_insert_2; [reflexivity | apply map_Forall_empty]. }
  exact (proj1 (reported_score_is_rounded annotated_engine two_layers "ACME"
                  (Some "Technology") None Hs Hw)).
Defined.

(** ** The decision table *)

(** The verdict of [_determine_action], row by row, with each condition
    as a proposition. *)
Lemma determine_action_rows
    (ws : Q) (sa : StructuralAnalysis) (bs : BeliefState)
    (layers : gmap string Layer) :
  let v := _determine_action ws sa bs layers in
  (disqualify sa = true /\ v.1 = ("AVOID", "DO_NOT_TRADE"))
  \/ (disqualify sa = false
      /\ (0.2 < distress_prob bs \/ 0.5 < bear_prob bs)
      /\ v.1 = ("SHORT", "SHORT_CANDIDATE"))
  \/ (disqualify sa = false
      /\ distress_prob bs <= 0.2 /\ bear_prob bs <= 0.5
      /\ ((0.6 < bull_prob bs /\ 70 <= ws /\ v.1 = ("HIGH", "BUY_HIGH_CONVICTION"))
          \/ (65 <= ws /\ v.1 = ("MEDIUM", "BUY_MEDIUM"))
          \/ (55 <= ws < 65 /\ v.1 = ("LOW", "TRADE_ONLY"))
          \/ (40 <= ws < 55 /\ v.1 = ("AVOID", "SPECULATION_ONLY"))
          \/ (ws < 40 /\ v.1 = ("AVOID", "DO_NOT_TRADE")))).
Proof.
  cbv zeta. unfold _determine_action.
  destruct (disqualify sa); [left; split; reflexivity | right].
  destruct (Qgt_bool (distress_prob bs) 0.2) eqn:Hd.
  { apply Qgt_bool_iff in Hd. left. repeat split; [left; exact Hd]. }
  apply Qgt_bool_false in Hd.
  destruct (Qgt_bool (bear_prob bs) 0.5) eqn:Hb.
  { apply Qgt_bool_iff in Hb. left. repeat split; [right; exact Hb]. }
  apply Qgt_bool_false in Hb. right. repeat split; try assumption.
  destruct (Qgt_bool (bull_prob bs) 0.6 && Qge_bool ws 70) eqn:Hhigh.
  { apply andb_true_iff in Hhigh as [Hbull Hws].
    apply Qgt_bool_iff in Hbull. apply Qge_bool_iff in Hws.
    left. repeat split; assumption. }
  right.
  destruct (Qge_bool ws 65) eqn:H65.
  { apply Qge_bool_iff in H65. left. split; [assumption | reflexivity]. }
  apply Qge_bool_false in H65. right.
  destruct (Qge_bool ws 55) eqn:H55.
  { apply Qge_bool_iff in H55. left. repeat split; assumption. }
  apply Qge_bool_false in H55. right.
  destruct (Qge_bool ws 40) eqn:H40.
  { apply Qge_bool_iff in H40. left. repeat split; assumption. }
  apply Qge_bool_false in H40. right. split; [assumption | reflexivity].
Qed.

(** X10.  A verdict that recommends a position (BUY_HIGH_CONVICTION,
    BUY_MEDIUM or TRADE_ONLY) is only given when the analysis is not
    disqualified, the distress probability is at most 0.2, the bear
    probability is at most 0.5 and the weighted score is at least 55. *)
Theorem position_verdicts_are_guarded
    (ws : Q) (sa : StructuralAnalysis) (bs : BeliefState)
    (layers : gmap string Layer) :
  (_determine_action ws sa bs layers).1.2
    ∈ ["BUY_HIGH_CONVICTION"; "BUY_MEDIUM"; "TRADE_ONLY"] ->
  disqualify sa = false /\ distress_prob bs <= 0.2 /\ bear_prob bs <= 0.5
  /\ 55 <= ws.
Proof.
  intros Hin.
  assert (forall c a : string,
             (_determine_action ws sa bs layers).1 = (c, a) ->
             a <> "BUY_HIGH_CONVICTION" /\ a <> "BUY_MEDIUM" /\ a <> "TRADE_ONLY" ->
             False) as Hno.
  { intros c a E (H1 & H2 & H3). rewrite E in Hin. cbn in Hin.
    repeat (apply elem_of_cons in Hin as [Hin | Hin]; [congruence |]).
    now apply not_elem_of_nil in Hin. }
  destruct (determine_action_rows ws sa bs layers)
    as [[_ E] | [(_ & _ & E) | (Hd & Hdis & Hbear & Hrow)]].
  - exfalso. apply (Hno _ _ E). repeat split; discriminate.
  - exfalso. apply (Hno _ _ E). repeat split; discriminate.
  - repeat split; try assumption.
    destruct Hrow as [(_ & H & _) | [(H & _) | [([H _] & _) | [(_ & E) | (_ & E)]]]];
      try lra; exfalso; apply (Hno _ _ E); repeat split; discriminate.
Qed.

Lemma position_verdicts_are_guarded_witness :
  55 <= 80 /\ (_determine_action 80 initial_analysis some_belief ∅).1.2
              = "BUY_MEDIUM".
Proof.
  split; [| vm_compute; reflexivity].
  apply (position_verdicts_are_guarded 80 initial_analysis some_belief ∅).
  vm_compute. apply list_elem_of_further, list_elem_of_here.
Defined.

(** X11.  The conviction is SHORT exactly when the analysis is not
    disqualified and the distress probability exceeds 0.2 or the bear
    probability exceeds 0.5; the action is then SHORT_CANDIDATE, whatever
    the weighted score. *)
Theorem short_verdict
    (ws : Q) (sa : StructuralAnalysis) (bs : BeliefState)
    (layers : gmap string Layer) :
  let v := _determine_action ws sa bs layers in
  (v.1.1 = "SHORT"
   <-> disqualify sa = false /\ (0.2 < distress_prob bs \/ 0.5 < bear_prob bs))
  /\ (v.1.1 = "SHORT" -> v.1.2 = "SHORT_CANDIDATE").
Proof.
  cbv zeta.
  destruct (determine_action_rows ws sa bs layers)
    as [[Hd E] | [(Hd & Hsig & E) | (Hd & Hdis & Hbear & Hrow)]].
  - rewrite E. cbn. split; [split |]; intros H; try discriminate H.
    destruct H as [H _]. congruence.
  - rewrite E. cbn. split; [split |]; intros; try reflexivity. split; assumption.
  - assert (exists c a, (_determine_action ws sa bs layers).1 = (c, a)
                        /\ c <> "SHORT") as (c & a & E & Hc).
    { destruct Hrow as [(_ & _ & E) | [(_ & E) | [(_ & E) | [(_ & E) | (_ & E)]]]];
        rewrite E; do 2 eexists; (split; [reflexivity | discriminate]). }
    rewrite E. cbn. split; [split |]; intros H; try contradiction.
    destruct H as [_ [H | H]]; lra.
Qed.

(** ** What a HIGH conviction takes *)

(** The normalization never raises a probability. *)
Lemma normalize_probs_bull_le (p : Probs) :
  nonneg p -> bull (normalize_probs p) <= bull p.
Proof.
  intros (Hb & Hr & Hd). unfold normalize_probs. cbv zeta.
  destruct (Qgt_bool (bull p + bear p + distress p) 1) eqn:Hgt; [| lra].
  apply Qgt_bool_iff in Hgt. cbn [bull].
  apply Qle_shift_div_r; [lra |].
  assert (1 * bull p <= (bull p + bear p + distress p) * bull p)
    by (apply Qmult_le_compat_r; lra).
  lra.
Qed.

(** The bull probability left by the layer evidence exceeds 0.6 only
    with a business score of 8 or more and three improving layers. *)
Lemma evidence_bull_bound (layers : gmap string Layer) :
  0.6 < bull (evidence_updates layers) ->
  8 <= default 5 (score (layer_get layers "business_model"))
  /\ (3 <= trajectory_count layers "improving")%nat.
Proof.
  unfold evidence_updates, update_trajectory, update_business, update_financial,
    when. cbv zeta.
  set (business := layer_get layers "business_model").
  set (financial := layer_get layers "financial_truth").
  destruct (Nat.leb_spec 3 (trajectory_count layers "improving")) as [Himp | Himp];
    destruct (3 <=? trajectory_count layers "deteriorating")%nat;
    destruct (Qge_bool (default 5 (score business)) 8) eqn:H8;
    try destruct (Qle_bool (default 5 (score business)) 3);
    destruct (bool_decide (risk_level financial = Some "critical"));
    try destruct (bool_decide (risk_level financial = Some "high"));
    cbn [bull bear distress priors]; intros Hbull;
    try (exfalso; lra);
    apply Qge_bool_iff in H8; split; assumption.
Qed.

(** X12.  [synthesize] gives the conviction HIGH only to an analysis that
    is not disqualified, whose business-model layer scores 8 or more and
    in which at least three layers have an improving trajectory: without
    both, the bull probability cannot exceed 0.6. *)
Theorem high_conviction_requirements
    (self : SynthesisEngine) (layers : gmap string Layer) (name : string)
    (sector industry : option string) :
  conviction (synthesize self layers name sector industry) = "HIGH" ->
  disqualified (synthesize self layers name sector industry) = false
  /\ 8 <= default 5 (score (layer_get layers "business_model"))
  /\ (3 <= trajectory_count layers "improving")%nat.
Proof.
  unfold synthesize.
  destruct (_calculate_weighted_score layers (_get_weights self sector industry))
    as [ws bd].
  pose proof (determine_action_rows ws (_analyze_structural_patterns layers)
                (_compute_belief_state layers (_analyze_structural_patterns layers))
                layers) as Hrows. cbv zeta in Hrows.
  destruct (_determine_action ws (_analyze_structural_patterns layers)
              (_compute_belief_state layers (_analyze_structural_patterns layers))
              layers) as [[c a] rs].
  cbn [conviction disqualified fst] in *. intros ->.
  destruct Hrows as [[_ E] | [(_ & _ & E) | (Hd & _ & _ & Hrow)]];
    try discriminate E.
  destruct Hrow as [(Hbull & _ & _) | [(_ & E) | [(_ & E) | [(_ & E) | (_ & E)]]]];
    try discriminate E.
  split; [exact Hd |]. apply evidence_bull_bound.
  unfold _compute_belief_state, before_normalization, force_disqualified in Hbull.
  rewrite Hd in Hbull. cbn [bull_prob belief_of] in Hbull.
  pose proof (normalize_probs_bull_le (evidence_updates layers)
                (evidence_updates_nonneg layers)).
  lra.
Qed.

Lemma high_conviction_requirements_witness :
  conviction (synthesize annotated_engine compounder_layers "ACME" None None)
  = "HIGH"
  /\ (3 <= trajectory_count compounder_layers "improving")%nat.
Proof.
  assert (conviction (synthesize annotated_engine compounder_layers "ACME"
                        None None) = "HIGH") as H by (vm_compute; reflexivity).
  split; [exact H |].
  apply (high_conviction_requirements annotated_engine compounder_layers "ACME"
           None None H).
Defined.

(** ** Flags and lists of the structural analysis *)

(** X13.  The analysis is disqualified exactly when the message of one of
    the four disqualifying rules is among the triggered override rules;
    in particular a disqualified analysis always names at least one
    rule. *)
Theorem disqualify_iff_rule_listed (layers : gmap string Layer) :
  let a := _analyze_structural_patterns layers in
  (disqualify a = true
   <-> exists m, m ∈ [msg_rule1; msg_rule2; msg_rule3; msg_rule4]
                 /\ m ∈ override_rules_triggered a)
  /\ (disqualify a = true -> override_rules_triggered a <> []).
Proof.
  cbv zeta. rewrite analysis_disqualify, analysis_overrides.
  split; [split |].
  - intros Hd.
    destruct (rule1 layers);
      [exists msg_rule1; split;
       [apply list_elem_of_here | apply elem_of_app; left; apply list_elem_of_here] |].
    destruct (rule2 layers);
      [exists msg_rule2; split;
       [do 1 apply list_elem_of_further; apply list_elem_of_here
       | apply elem_of_app; right; apply elem_of_app; left; apply list_elem_of_here] |].
    destruct (rule3 layers);
      [exists msg_rule3; split;
       [do 2 apply list_elem_of_further; apply list_elem_of_here
       | do 2 (apply elem_of_app; right); apply elem_of_app; left;
         apply list_elem_of_here] |].
    destruct (rule4 layers); [| discriminate Hd].
    exists msg_rule4. split.
    + do 3 apply list_elem_of_further. apply list_elem_of_here.
    + do 3 (apply elem_of_app; right). apply elem_of_app. left.
      apply list_elem_of_here.
  - intros (m & Hm & Hin).
    destruct (rule1 layers), (rule2 layers), (rule3 layers), (rule4 layers);
      try reflexivity.
    exfalso. cbn [app] in Hin.
    assert (m = msg_rule5) as ->.
    { destruct (rule5 layers); [now apply list_elem_of_singleton in Hin |].
      now apply not_elem_of_nil in Hin. }
    repeat (apply elem_of_cons in Hm as [Hm | Hm]; [discriminate Hm |]).
    now apply not_elem_of_nil in Hm.
  - destruct (rule1 layers), (rule2 layers), (rule3 layers), (rule4 layers),
      (rule5 layers); cbn [orb app]; intros Hd E; discriminate.
Qed.

(** The override rules leave the amplification flag, the pattern list and
    the diagnostic map as they start. *)
Lemma override_rules_neutral (layers : gmap string Layer) :
  let a :=
    when (rule5 layers) (append_override msg_rule5)
      (when (rule4 layers) (fun a => append_override msg_rule4 (set_disqualify a))
         (when (rule3 layers) (fun a => append_override msg_rule3 (set_disqualify a))
            (when (rule2 layers) (fun a => append_override msg_rule2 (set_disqualify a))
               (when (rule1 layers)
                  (fun a => append_override msg_rule1 (set_disqualify a))
                  initial_analysis)))) in
  amplify a = false /\ pattern_matches a = [] /\ cross_layer_signals a = ∅.
Proof.
  cbv zeta. repeat split.
  - do 5 (rewrite (when_preserves amplify) by reflexivity). reflexivity.
  - do 5 (rewrite (when_preserves pattern_matches) by reflexivity). reflexivity.
  - do 5 (rewrite (when_preserves cross_layer_signals) by reflexivity). reflexivity.
Qed.

(** X14.  The amplification flag and the pattern list agree: [amplify] is
    true exactly when STRONG_FUNDAMENTALS or BROAD_IMPROVEMENT is among
    the matched patterns (COMPOUNDER_PROFILE alone does not amplify), and
    MIXED_SIGNALS is listed exactly when the consistency diagnostic is
    CONFLICTING. *)
Theorem amplify_agrees_with_patterns (layers : gmap string Layer) :
  let a := _analyze_structural_patterns layers in
  (amplify a = true
   <-> "STRONG_FUNDAMENTALS" ∈ pattern_matches a
       \/ "BROAD_IMPROVEMENT" ∈ pattern_matches a)
  /\ ("MIXED_SIGNALS" ∈ pattern_matches a
      <-> cross_layer_signals a !! "consistency" = Some "CONFLICTING").
Proof.
  cbv zeta. unfold _analyze_structural_patterns. cbv zeta.
  destruct (override_rules_neutral layers) as (Ham & Hpm & Hcs). cbv zeta in *.
  destruct (when (rule5 layers) _ _) as [d am ov pm cs].
  cbn [amplify pattern_matches cross_layer_signals] in Ham, Hpm, Hcs. subst.
  unfold consistency_check, when.
  destruct (Qge_bool _ 7 && Qge_bool _ 7);
    destruct ((3 <=? _)%nat && (_ =? 0)%nat);
    destruct (Qge_bool _ 8 && trajectory_is _ "improving");
    (destruct (present_scores layers) as [| x xs];
     [| destruct (Qlt_bool (pvariance (x :: xs)) 4);
        [| destruct (Qlt_bool 16 (pvariance (x :: xs)))]]);
    cbn [amplify pattern_matches cross_layer_signals set_amplify append_pattern
         set_signal app];
    rewrite ?lookup_insert_eq, ?lookup_empty;
    (split; split;
     [ intros H; try discriminate H;
       first [ solve [left;
                      repeat first [apply list_elem_of_here | apply list_elem_of_further]]
             | solve [right;
                      repeat first [apply list_elem_of_here | apply list_elem_of_further]] ]
     | intros [H | H]; try reflexivity; exfalso;
       repeat (apply elem_of_cons in H as [H | H]; [discriminate H |]);
       now apply not_elem_of_nil in H
     | intros H; try reflexivity; exfalso;
       repeat (apply elem_of_cons in H as [H | H]; [discriminate H |]);
       now apply not_elem_of_nil in H
     | intros H; try discriminate H;
       repeat first [apply list_elem_of_here | apply list_elem_of_further] ]).
Qed.

(** ** The belief state of a disqualified analysis *)

(** The distress probability left by the layer evidence. *)
Lemma evidence_distress_range (layers : gmap string Layer) :
  0.05 <= distress (evidence_updates layers) <= 0.375.
Proof.
  unfold evidence_updates, update_trajectory, update_business, update_financial,
    when. cbv zeta.
  destruct (3 <=? trajectory_count layers "improving")%nat;
    destruct (3 <=? trajectory_count layers "deteriorating")%nat;
    destruct (Qge_bool _ 8); try destruct (Qle_bool _ 3);
    destruct (bool_decide (_ = Some "critical"));
    try destruct (bool_decide (_ = Some "high"));
    cbn [bull bear distress priors]; lra.
Qed.

(** X15.  For a disqualified analysis the returned belief state is bearish
    whatever the layers say: bull_prob lies in [[0.04, 0.05]], bear_prob in
    [[0.56, 0.7]] (so above the 0.5 that marks a structural bear case) and
    distress_prob in [[0.1, 0.4]]. *)
Theorem disqualified_belief_is_bearish
    (layers : gmap string Layer) (sa : StructuralAnalysis) :
  disqualify sa = true ->
  let b := _compute_belief_state layers sa in
  0.04 <= bull_prob b <= 0.05
  /\ 0.56 <= bear_prob b <= 0.7
  /\ 0.1 <= distress_prob b <= 0.4.
Proof.
  intros Hd. cbv zeta.
  unfold _compute_belief_state, before_normalization, force_disqualified.
  rewrite Hd. pose proof (evidence_distress_range layers) as [Hlo Hhi].
  set (d := Qmin (distress (evidence_updates layers) * 2) 0.5).
  assert (0.1 <= d) as Hd1 by (apply Q.min_glb; lra).
  assert (d <= 0.5) as Hd2 by apply Q.le_min_r.
  unfold normalize_probs. cbv zeta. cbn [bull bear distress].
  destruct (Qgt_bool (0.05 + 0.7 + d) 1) eqn:Hgt;
    cbn [belief_of bull bear distress bull_prob bear_prob distress_prob].
  - apply Qgt_bool_iff in Hgt.
    repeat split;
      first [ apply Qle_shift_div_l; [lra | lra]
            | apply Qle_shift_div_r; [lra | lra] ].
  - apply Qgt_bool_false in Hgt. repeat split; lra.
Qed.

Lemma disqualified_belief_is_bearish_witness :
  0.56 <= bear_prob (_compute_belief_state bailing_layers
                       (_analyze_structural_patterns bailing_layers)).
Proof.
  apply (disqualified_belief_is_bearish bailing_layers
           (_analyze_structural_patterns bailing_layers)).
  vm_compute. reflexivity.
Defined.

(** ** The history log *)

(** The snapshot that [save_analysis] builds, up to its time stamp. *)
Lemma save_analysis_result
    (cache : gmap string History) (now : nat -> string) (name : string)
    (analysis : Analysis) (synthesis : SynthesisResult) :
  exists h' t,
    save_analysis cache now name analysis synthesis !! name = Some h'
    /\ analyses h'
       = from_option analyses [] (cache !! name)
         ++ [mkSnapshot t (snapshot_layer <$> default ∅ (analysis_layers analysis))
                        synthesis]
    /\ (forall h, cache !! name = Some h ->
                  first_analyzed h' = first_analyzed h
                  /\ hist_ticker h' = hist_ticker h).
Proof.
  unfold save_analysis. destruct (cache !! name) as [h |] eqn:Hk.
  - eexists _, _. rewrite lookup_insert_eq. split; [reflexivity |].
    split; [reflexivity |]. intros h0 [= <-]. split; reflexivity.
  - eexists _, _. rewrite lookup_insert_eq. split; [reflexivity |].
    split; [reflexivity |]. intros h0 [=].
Qed.

(** X16.  [save_analysis] only appends: the history of the ticker keeps
    its earlier snapshots, in order, and gains one snapshot holding the
    given synthesis and the five kept fields of each layer; the first
    analysis date of an existing history is unchanged, and the history of
    every other ticker is untouched. *)
Theorem save_analysis_appends
    (cache : gmap string History) (now : nat -> string) (name : string)
    (analysis : Analysis) (synthesis : SynthesisResult) :
  let cache' := save_analysis cache now name analysis synthesis in
  (forall other, other <> name -> cache' !! other = cache !! other)
  /\ exists h' s,
       cache' !! name = Some h'
       /\ analyses h' = from_option analyses [] (cache !! name) ++ [s]
       /\ snap_synthesis s = synthesis
       /\ snap_layers s = snapshot_layer <$> default ∅ (analysis_layers analysis)
       /\ (forall h, cache !! name = Some h ->
                     first_analyzed h' = first_analyzed h).
Proof.
  cbv zeta. split.
  - intros other Hne. apply save_analysis_lookup_other. congruence.
  - destruct (save_analysis_result cache now name analysis synthesis)
      as (h' & t & Hk & Han & Hfirst).
    eexists h', _. split; [exact Hk |]. split; [exact Han |].
    repeat split. intros h Hh. now apply Hfirst.
Qed.

(** X17.  After two consecutive saves for a ticker, whatever the cache
    held before, [get_temporal_analysis] returns the deltas between
    exactly these two snapshots: the later one as latest, the earlier one
    as previous. *)
Theorem two_saves_are_compared
    (cache : gmap string History) (now1 now2 : nat -> string) (name : string)
    (analysis1 analysis2 : Analysis) (synthesis1 synthesis2 : SynthesisResult) :
  let cache2 :=
    save_analysis (save_analysis cache now1 name analysis1 synthesis1)
                  now2 name analysis2 synthesis2 in
  exists t1 t2 h,
    get_temporal_analysis cache2 name
    = Some (Deltas
              (_compute_deltas
                 (mkSnapshot t2
                    (snapshot_layer <$> default ∅ (analysis_layers analysis2))
                    synthesis2)
                 (mkSnapshot t1
                    (snapshot_layer <$> default ∅ (analysis_layers analysis1))
                    synthesis1)
                 h)).
Proof.
  cbv zeta.
  destruct (save_analysis_result cache now1 name analysis1 synthesis1)
    as (h1 & t1 & Hk1 & Han1 & _).
  destruct (save_analysis_result
              (save_analysis cache now1 name analysis1 synthesis1)
              now2 name analysis2 synthesis2) as (h2 & t2 & Hk2 & Han2 & _).
  rewrite Hk1 in Han2. cbn [from_option] in Han2. rewrite Han1 in Han2.
  exists t1, t2, h2. unfold get_temporal_analysis. rewrite Hk2. cbv zeta.
  set (old := from_option analyses [] (cache !! name)) in *.
  rewrite Han2, !length_app. cbn [length].
  destruct (Nat.ltb_spec (length old + 1 + 1) 2) as [Hlt | _]; [lia |].
  replace (length old + 1 + 1 - 1)%nat with (length (old ++ [mkSnapshot t1
    (snapshot_layer <$> default ∅ (analysis_layers analysis1)) synthesis1]) + 0)%nat
    by (rewrite length_app; cbn; lia).
  rewrite lookup_app_r by lia.
  replace (length old + 1 + 1 - 2)%nat with (length old + 0)%nat by lia.
  rewrite <- app_assoc, lookup_app_r by lia.
  replace (_ + 0 - _)%nat with 0%nat by lia.
  replace (_ + 0 - _)%nat with 0%nat by lia.
  reflexivity.
Qed.

(** X18.  The history of a ticker is the log of the saves made for it:
    after any sequence of saves into an empty cache directory, its
    snapshots hold, in the order of the calls, the layers and the
    synthesis of each call made for that ticker, and of no other call. *)
Theorem history_is_the_log_of_saves (calls : list SaveCall) (name : string) :
  (fun s => (snap_layers s, snap_synthesis s))
    <$> from_option analyses [] (run_saves ∅ calls !! name)
  = (fun c => (snapshot_layer <$> default ∅ (analysis_layers (call_analysis c)),
               call_synthesis c))
      <$> filter (fun c => call_ticker c = name) calls.
Proof.
  induction calls as [| c calls IH] using rev_ind.
  - cbn. rewrite lookup_empty. reflexivity.
  - unfold run_saves in *. rewrite fold_left_app, filter_app, fmap_app.
    cbn [fold_left]. set (cache := fold_left _ calls ∅) in *.
    destruct (decide (call_ticker c = name)) as [Heq | Hne].
    + subst name. rewrite filter_cons_True by reflexivity.
      destruct (save_analysis_result cache (call_now c) (call_ticker c)
                  (call_analysis c) (call_synthesis c))
        as (h' & t & -> & Han & _).
      cbn [from_option]. rewrite Han, fmap_app, IH. reflexivity.
    + rewrite filter_cons_False by exact Hne.
      rewrite save_analysis_lookup_other by exact Hne.
      rewrite IH. cbn. now rewrite app_nil_r.
Qed.

(** ** Risk drift *)

Lemma shared_layers_spec
    (latest_layers previous_layers : gmap string Layer) (k : string) (l p : Layer) :
  (k, (l, p)) ∈ shared_layers latest_layers previous_layers
  <-> latest_layers !! k = Some l /\ previous_layers !! k = Some p.
Proof.
  split; [| intros [Hl Hp]; now apply shared_layers_elem].
  unfold shared_layers. intros Hin.
  apply list_elem_of_omap in Hin as ([k' l'] & Hin & Hf).
  apply elem_of_map_to_list in Hin. cbn in Hf.
  destruct (previous_layers !! k') as [p' |] eqn:Hp; [| discriminate Hf].
  injection Hf as <- <- <-. split; assumption.
Qed.

(** The flags gathered on one side of the shared layers. *)
Lemma gathered_flags_spec
    (latest_layers previous_layers : gmap string Layer)
    (side : Layer * Layer -> Layer) (f : string) :
  f ∈ ⋃ ((fun klp : string * (Layer * Layer) => flag_set (side klp.2))
           <$> shared_layers latest_layers previous_layers)
  <-> exists k l p, latest_layers !! k = Some l /\ previous_layers !! k = Some p
                    /\ f ∈ default [] (risk_flags (side (l, p))).
Proof.
  rewrite elem_of_union_list. split.
  - intros (X & HX & Hf). apply list_elem_of_fmap in HX as ([k [l p]] & -> & Hin).
    apply shared_layers_spec in Hin as [Hl Hp]. cbn in Hf.
    unfold flag_set in Hf. apply elem_of_list_to_set in Hf.
    exists k, l, p. repeat split; assumption.
  - intros (k & l & p & Hl & Hp & Hf).
    exists (flag_set (side (l, p))). split.
    + apply list_elem_of_fmap. exists (k, (l, p)). split; [reflexivity |].
      now apply shared_layers_spec.
    + unfold flag_set. now apply elem_of_list_to_set.
Qed.

(** X19.  Risk drift looks only at the layers present in both snapshots
    and pools their flags: a flag is a new risk exactly when some shared
    layer carries it in the latest snapshot and no shared layer carried it
    in the previous one (so the flags of a layer that appears in only one
    snapshot are ignored, and a flag that moves from one shared layer to
    another is persistent, not new).  New, resolved and persistent risks
    are pairwise disjoint. *)
Theorem risk_drift_sets (latest_layers previous_layers : gmap string Layer) :
  let d := _analyze_risk_drift latest_layers previous_layers in
  let on_latest f :=
    exists k l p, latest_layers !! k = Some l /\ previous_layers !! k = Some p
                  /\ f ∈ default [] (risk_flags l) in
  let on_previous f :=
    exists k l p, latest_layers !! k = Some l /\ previous_layers !! k = Some p
                  /\ f ∈ default [] (risk_flags p) in
  (forall f, f ∈ new_risks d <-> on_latest f /\ ~ on_previous f)
  /\ (forall f, f ∈ resolved_risks d <-> on_previous f /\ ~ on_latest f)
  /\ (forall f, f ∈ persistent_risks d <-> on_latest f /\ on_previous f)
  /\ new_risks d ∩ resolved_risks d = ∅
  /\ new_risks d ∩ persistent_risks d = ∅
  /\ resolved_risks d ∩ persistent_risks d = ∅.
Proof.
  cbv zeta. unfold _analyze_risk_drift. cbv zeta.
  cbn [new_risks resolved_risks persistent_risks].
  pose proof (gathered_flags_spec latest_layers previous_layers fst) as Hl.
  pose proof (gathered_flags_spec latest_layers previous_layers snd) as Hp.
  cbn [fst snd] in Hl, Hp.
  set (L := ⋃ ((fun klp : string * (Layer * Layer) => flag_set klp.2.1)
                 <$> shared_layers latest_layers previous_layers)) in *.
  set (P := ⋃ ((fun klp : string * (Layer * Layer) => flag_set klp.2.2)
                 <$> shared_layers latest_layers previous_layers)) in *.
  assert (forall f, f ∈ L ∖ P <-> f ∈ L /\ f ∉ P) as Hdiff
      by (intros f; apply elem_of_difference).
  assert (forall f, f ∈ L ∩ P <-> f ∈ L /\ f ∈ P) as Hint
      by (intros f; apply elem_of_intersection).
  split; [| split; [| split]].
  - intros f. rewrite Hdiff, Hl, Hp. reflexivity.
  - intros f. assert (f ∈ P ∖ L <-> f ∈ P /\ f ∉ L) as ->
        by apply elem_of_difference.
    rewrite Hl, Hp. reflexivity.
  - intros f. rewrite Hint, Hl, Hp. reflexivity.
  - clear Hl Hp Hdiff Hint.
    repeat split; apply set_eq; intros f;
      rewrite ?elem_of_intersection, ?elem_of_difference, elem_of_empty; tauto.
Qed.

(** ** Per-layer changes *)

Lemma shared_layers_keys_NoDup
    (latest_layers previous_layers : gmap string Layer) :
  NoDup (shared_layers latest_layers previous_layers).*1.
Proof.
  unfold shared_layers.
  pose proof (NoDup_fst_map_to_list latest_layers) as Hnd.
  induction (map_to_list latest_layers) as [| [k l] kls IH]; [constructor |].
  cbn [fmap list_fmap fst] in Hnd. apply NoDup_cons in Hnd as [Hk Hnd].
  cbn [omap list_omap fst snd].
  destruct (previous_layers !! k) as [p |]; [| now apply IH].
  cbn [fmap list_fmap fst]. apply NoDup_cons. split; [| now apply IH].
  intros Hin. apply Hk.
  apply list_elem_of_fmap in Hin as ([k' [l' p']] & -> & Hin).
  apply list_elem_of_omap in Hin as ([k'' l''] & Hin & Hf). cbn in Hf.
  destruct (previous_layers !! k''); [| discriminate Hf].
  injection Hf as <- <- <-. apply list_elem_of_fmap. exists (k'', l'').
  split; [reflexivity | exact Hin].
Qed.

Lemma layer_changes_lookup
    (latest previous : Snapshot) (history : History) (k : string) :
  layer_changes (_compute_deltas latest previous history) !! k
  = match snap_layers latest !! k, snap_layers previous !! k with
    | Some l, Some p => Some (layer_change (l, p))
    | _, _ => None
    end.
Proof.
  unfold _compute_deltas. cbn [layer_changes].
  set (shared := shared_layers (snap_layers latest) (snap_layers previous)).
  assert (NoDup ((fun klp : string * (Layer * Layer) =>
                    (klp.1, layer_change klp.2)) <$> shared).*1) as Hnd.
  { rewrite <- list_fmap_compose.
    assert ((fst ∘ (fun klp : string * (Layer * Layer) => (klp.1, layer_change klp.2)))
            <$> shared = shared.*1) as -> by (apply list_fmap_ext; now intros ? []).
    apply shared_layers_keys_NoDup. }
  destruct (snap_layers latest !! k) as [l |] eqn:Hl;
    [destruct (snap_layers previous !! k) as [p |] eqn:Hp |].
  - apply elem_of_list_to_map; [exact Hnd |].
    apply list_elem_of_fmap. exists (k, (l, p)). split; [reflexivity |].
    now apply shared_layers_spec.
  - apply not_elem_of_list_to_map. intros Hin.
    apply list_elem_of_fmap in Hin as ([k' c] & -> & Hin).
    apply list_elem_of_fmap in Hin as ([k'' [l' p']] & [= -> ->] & Hin).
    apply shared_layers_spec in Hin as [_ Hp']. cbn in Hp, Hp'. congruence.
  - apply not_elem_of_list_to_map. intros Hin.
    apply list_elem_of_fmap in Hin as ([k' c] & -> & Hin).
    apply list_elem_of_fmap in Hin as ([k'' [l' p']] & [= -> ->] & Hin).
    apply shared_layers_spec in Hin as [Hl' _]. cbn in Hl, Hl'. congruence.
Qed.

(** X20.  [layer_changes] has an entry exactly for the layers present in
    both snapshots.  The entry of such a layer holds its previous and
    latest score (0 for a layer without score) and a direction that is
    improving when the score rose, deteriorating when it fell and stable
    when it is unchanged; a layer present in only one snapshot has no
    entry. *)
Theorem layer_changes_entries
    (latest previous : Snapshot) (history : History) (k : string) :
  let changes := layer_changes (_compute_deltas latest previous history) in
  (forall l p,
      snap_layers latest !! k = Some l -> snap_layers previous !! k = Some p ->
      exists c, changes !! k = Some c
        /\ change_previous c = default 0 (score p)
        /\ change_latest c = default 0 (score l)
        /\ (change_direction c = "improving"
            <-> default 0 (score p) < default 0 (score l))
        /\ (change_direction c = "deteriorating"
            <-> default 0 (score l) < default 0 (score p))
        /\ (change_direction c = "stable"
            <-> default 0 (score l) == default 0 (score p)))
  /\ (snap_layers latest !! k = None \/ snap_layers previous !! k = None ->
      changes !! k = None).
Proof.
  cbv zeta. rewrite layer_changes_lookup. split.
  - intros l p -> ->. eexists. split; [reflexivity |].
    unfold layer_change, score_delta. cbv zeta.
    cbn [change_previous change_latest change_direction fst snd].
    split; [reflexivity |]. split; [reflexivity |].
    set (a := default 0 (score l)). set (b := default 0 (score p)).
    destruct (Qgt_bool (a - b) 0) eqn:Hgt.
    { apply Qgt_bool_iff in Hgt.
      repeat split; intros; try discriminate; try lra; reflexivity. }
    apply Qgt_bool_false in Hgt.
    destruct (Qlt_bool (a - b) 0) eqn:Hlt.
    { apply Qlt_bool_iff in Hlt.
      repeat split; intros; try discriminate; try lra; reflexivity. }
    apply Qlt_bool_false in Hlt.
    repeat split; intros; try discriminate; try lra; reflexivity.
  - intros [-> | ->]; [reflexivity |].
    destruct (snap_layers latest !! k); reflexivity.
Qed.

Lemma layer_changes_entries_witness :
  exists c, layer_changes (_compute_deltas falling_latest falling_previous
                             falling_history) !! "financial_truth" = Some c
            /\ change_previous c = 6 /\ change_latest c = 4.
Proof.
  destruct (proj1 (layer_changes_entries falling_latest falling_previous
                     falling_history "financial_truth")
              (snapshot_layer
                 (layer 4 "deteriorating" "high" ["HIGH_DEBT_TO_EBITDA"]))
              (snapshot_layer (layer 6 "stable" "minimal" [])))
    as (c & Hc & Hprev & Hlat & _).
  - vm_compute. reflexivity.
  - vm_compute. reflexivity.
  - exists c. repeat split; assumption.
Defined.

(** ** Momentum labels *)

(** X21.  The two labels of a momentum record never contradict each
    other: an ACCELERATING momentum is always IMPROVING, a DECELERATING
    one always DETERIORATING, and a STABLE direction always comes with a
    STEADY acceleration (an IMPROVING or DETERIORATING direction can be
    STEADY too, for a mean delta between 0.5 and 1.0 in absolute value). *)
Theorem momentum_labels_consistent
    (latest previous : Snapshot) (history : History) (m : Momentum) :
  momentum (_compute_deltas latest previous history) = Some m ->
  (acceleration m = "ACCELERATING" -> direction m = "IMPROVING")
  /\ (acceleration m = "DECELERATING" -> direction m = "DETERIORATING")
  /\ (direction m = "STABLE" -> acceleration m = "STEADY").
Proof.
  unfold _compute_deltas. cbn [momentum]. unfold momentum_of.
  destruct (score_changes _ _) as [| c cs]; [discriminate |].
  set (avg := average (c :: cs)). intros [= <-]. cbn [direction acceleration].
  destruct (Qgt_bool avg 0.5) eqn:H1; destruct (Qlt_bool avg (-0.5)) eqn:H2;
    destruct (Qgt_bool avg 1.0) eqn:H3; destruct (Qlt_bool avg (-1.0)) eqn:H4;
    rewrite ?Qgt_bool_iff, ?Qgt_bool_false, ?Qlt_bool_iff, ?Qlt_bool_false in *;
    repeat split; intros; try reflexivity; try discriminate; exfalso; lra.
Qed.

Lemma momentum_labels_consistent_witness :
  exists m, momentum (_compute_deltas falling_latest falling_previous
                        falling_history) = Some m
            /\ (acceleration m = "DECELERATING" -> direction m = "DETERIORATING").
Proof.
  eexists. split; [vm_compute; reflexivity |].
  apply (momentum_labels_consistent falling_latest falling_previous
           falling_history).
  vm_compute. reflexivity.
Defined.

(** ** Comparing a snapshot with itself *)

Lemma Qsum_zero (l : list Q) : Forall (fun x => x == 0) l -> Qsum l == 0.
Proof.
  induction 1 as [| x l Hx _ IH]; [reflexivity |].
  rewrite Qsum_cons, Hx, IH. ring.
Qed.

Lemma shared_with_itself (layers : gmap string Layer) (k : string) (l p : Layer) :
  (k, (l, p)) ∈ shared_layers layers layers -> l = p.
Proof. intros Hin. apply shared_layers_spec in Hin as [Hl Hp]. congruence. Qed.

Lemma omap_all_None {A B} (f : A -> option B) (l : list A) :
  (forall x, x ∈ l -> f x = None) -> omap f l = [].
Proof.
  induction l as [| x l IH]; intros H; [reflexivity |].
  cbn [omap list_omap]. rewrite (H x) by apply list_elem_of_here.
  apply IH. intros y Hy. apply H. now apply list_elem_of_further.
Qed.

(** X22.  Comparing a snapshot with an identical one reports no change:
    no new and no resolved risk, no change of risk level, an unchanged
    conviction, a momentum (when the snapshot has layers) that is STABLE
    and STEADY, and the recommendation to hold. *)
Theorem unchanged_snapshot_is_stable (s : Snapshot) (history : History) :
  let d := _compute_deltas s s history in
  new_risks (risk_drift d) = ∅
  /\ resolved_risks (risk_drift d) = ∅
  /\ risk_level_change (risk_drift d) = ∅
  /\ changed (conviction_change d) = false
  /\ (forall m, momentum d = Some m ->
                direction m = "STABLE" /\ acceleration m = "STEADY")
  /\ recommendation (summary d) = "Hold current position, monitor closely".
Proof.
  cbv zeta.
  assert (forall m, momentum (_compute_deltas s s history) = Some m ->
                    direction m = "STABLE" /\ acceleration m = "STEADY") as Hm.
  { unfold _compute_deltas. cbn [momentum]. unfold momentum_of. intros m.
    destruct (score_changes (snap_layers s) (snap_layers s)) as [| c cs] eqn:Hcs;
      [discriminate |].
    assert (average (c :: cs) == 0) as Havg.
    { unfold average. rewrite Qsum_zero; [unfold Qdiv; ring |].
      rewrite <- Hcs. unfold score_changes. apply Forall_fmap, Forall_forall.
      intros [k [l p]] Hin. apply shared_with_itself in Hin as ->.
      unfold score_delta. cbn. ring. }
    intros [= <-]. cbn [direction acceleration].
    assert (Qgt_bool (average (c :: cs)) 0.5 = false) as ->
      by (apply Qgt_bool_false; lra).
    assert (Qlt_bool (average (c :: cs)) (-0.5) = false) as ->
      by (apply Qlt_bool_false; lra).
    assert (Qgt_bool (average (c :: cs)) 1.0 = false) as ->
      by (apply Qgt_bool_false; lra).
    assert (Qlt_bool (average (c :: cs)) (-1.0) = false) as ->
      by (apply Qlt_bool_false; lra).
    split; reflexivity. }
  assert (forall f,
             f ∈ ⋃ ((fun klp : string * (Layer * Layer) => flag_set klp.2.1)
                      <$> shared_layers (snap_layers s) (snap_layers s))
             <-> f ∈ ⋃ ((fun klp : string * (Layer * Layer) => flag_set klp.2.2)
                          <$> shared_layers (snap_layers s) (snap_layers s)))
    as Hsame.
  { intros f.
    rewrite (gathered_flags_spec (snap_layers s) (snap_layers s) fst f).
    rewrite (gathered_flags_spec (snap_layers s) (snap_layers s) snd f).
    cbn [fst snd].
    split; intros (k & l & p & Hl & Hp & Hf); exists k, l, p;
      (split; [exact Hl | split; [exact Hp |]]);
      assert (l = p) as E by congruence; [rewrite <- E | rewrite E]; exact Hf. }
  split; [| split; [| split; [| split; [| split; [exact Hm |]]]]].
  - unfold _compute_deltas, _analyze_risk_drift. cbn [risk_drift new_risks].
    apply set_eq. intros f. rewrite elem_of_difference, elem_of_empty, Hsame. tauto.
  - unfold _compute_deltas, _analyze_risk_drift. cbn [risk_drift resolved_risks].
    apply set_eq. intros f. rewrite elem_of_difference, elem_of_empty, Hsame. tauto.
  - unfold _compute_deltas, _analyze_risk_drift. cbn [risk_drift risk_level_change].
    rewrite omap_all_None; [reflexivity |].
    intros [k [l p]] Hin. apply shared_with_itself in Hin as ->. cbn [fst snd].
    now rewrite bool_decide_eq_true_2.
  - unfold _compute_deltas. cbn [conviction_change changed].
    now rewrite bool_decide_eq_true_2.
  - unfold _compute_deltas. cbn [summary]. unfold _generate_summary. cbv zeta.
    cbn [recommendation].
    destruct (momentum_of (score_changes (snap_layers s) (snap_layers s)))
      as [m |] eqn:Hmo; [| reflexivity].
    destruct (Hm m) as [Hdir _];
      [unfold _compute_deltas; cbn [momentum]; exact Hmo |].
    match goal with
    | |- context [default ?a ?b] =>
        assert (default a b = "STABLE") as -> by exact Hdir
    end.
    reflexivity.
Qed.

(** ** The history summary *)

(** What one analysis adds to the series: a point at the end of the series
    of each of its layers, nothing elsewhere. *)
Lemma extend_series_lookup
    (analysis : Snapshot) (series : gmap string (list SeriesPoint)) (k : string) :
  extend_series analysis series !! k
  = match snap_layers analysis !! k with
    | Some l =>
        Some (default [] (series !! k)
              ++ [mkPoint (snap_timestamp analysis) (default 0 (score l))
                          (default "unknown" (trajectory l))])
    | None => series !! k
    end.
Proof.
  unfold extend_series. revert k.
  apply (map_fold_weak_ind
           (fun (r : gmap string (list SeriesPoint)) (m : gmap string Layer) =>
              forall k,
                r !! k
                = match m !! k with
                  | Some l =>
                      Some (default [] (series !! k)
                            ++ [mkPoint (snap_timestamp analysis)
                                        (default 0 (score l))
                                        (default "unknown" (trajectory l))])
                  | None => series !! k
                  end)).
  - intros k. now rewrite lookup_empty.
  - intros i x m r Hi IH k. destruct (decide (i = k)) as [-> | Hne].
    + rewrite !lookup_insert_eq. specialize (IH k). rewrite Hi in IH.
      now rewrite IH.
    + rewrite !lookup_insert_ne by exact Hne. apply IH.
Qed.

(** The series of one layer after a list of analyses: its points, in the
    order of the analyses. *)
Lemma series_fold_lookup
    (history : list Snapshot) (series : gmap string (list SeriesPoint))
    (k : string) :
  default [] (fold_left (fun series analysis => extend_series analysis series)
                        history series !! k)
  = default [] (series !! k)
    ++ omap (fun analysis : Snapshot =>
               (fun l : Layer =>
                  mkPoint (snap_timestamp analysis) (default 0 (score l))
                          (default "unknown" (trajectory l)))
                 <$> snap_layers analysis !! k)
            history.
Proof.
  revert series. induction history as [| a history IH]; intros series.
  - cbn. now rewrite app_nil_r.
  - cbn [fold_left omap list_omap]. rewrite IH, extend_series_lookup.
    destruct (snap_layers a !! k) as [l |]; cbn [fmap option_fmap option_map].
    + change (default [] (Some ?x)) with x. now rewrite <- app_assoc.
    + reflexivity.
Qed.

(** The summary of a ticker after a run from an empty cache directory. *)
Lemma history_summary_cases (calls : list SaveCall) (name : string) :
  match get_history_summary (run_saves ∅ calls) name with
  | None => saved_for name calls = 0%nat
  | Some s =>
      summary_analysis_count s = saved_for name calls
      /\ (1 <= saved_for name calls)%nat
      /\ summary_ticker s = name
      /\ exists h, run_saves ∅ calls !! name = Some h
           /\ forall k,
                default [] (layer_series s !! k)
                = omap (fun analysis : Snapshot =>
                          (fun l : Layer =>
                             mkPoint (snap_timestamp analysis) (default 0 (score l))
                                     (default "unknown" (trajectory l)))
                            <$> snap_layers analysis !! k)
                       (analyses h)
  end.
Proof.
  pose proof (run_saves_history calls name) as Hinv.
  unfold get_history_summary.
  destruct (run_saves ∅ calls !! name) as [h |] eqn:Hk; [| exact Hinv].
  destruct Hinv as [Hlen Hpos].
  destruct (analyses h) as [| a rest] eqn:Han; [cbn in Hlen; lia |].
  cbn [summary_analysis_count summary_ticker layer_series].
  repeat split; try assumption.
  exists h. split; [reflexivity |]. intros k.
  rewrite Han, series_fold_lookup, lookup_empty. reflexivity.
Qed.

(** X23.  After any sequence of saves into an empty cache directory,
    [get_history_summary] returns null exactly for a ticker without a
    saved snapshot; otherwise its analysis_count is the number of
    snapshots saved for the ticker, and the series of each layer lists,
    in chronological order, one point for every snapshot that contains the
    layer. *)
Theorem history_summary_counts (calls : list SaveCall) (name : string) :
  (get_history_summary (run_saves ∅ calls) name = None
   <-> saved_for name calls = 0%nat)
  /\ (forall s, get_history_summary (run_saves ∅ calls) name = Some s ->
        summary_analysis_count s = saved_for name calls
        /\ exists h, run_saves ∅ calls !! name = Some h
             /\ forall k,
                  default [] (layer_series s !! k)
                  = omap (fun analysis : Snapshot =>
                            (fun l : Layer =>
                               mkPoint (snap_timestamp analysis)
                                       (default 0 (score l))
                                       (default "unknown" (trajectory l)))
                              <$> snap_layers analysis !! k)
                         (analyses h)).
Proof.
  pose proof (history_summary_cases calls name) as H.
  destruct (get_history_summary (run_saves ∅ calls) name) as [s |].
  - destruct H as (Hcount & Hpos & _ & Hseries). split.
    + split; [discriminate | lia].
    + intros s' [= <-]. split; assumption.
  - split; [split; [intros _; exact H | reflexivity] | discriminate].
Qed.

(** ** Layers that the verdict does not depend on *)

(** The scorer on a map with one more layer outside the canonical names. *)
Lemma weighted_score_insert_other_aux
    (layers : gmap string Layer) (weights : gmap string Q) (k : string) (l : Layer) :
  k ∉ canonical_names ->
  _calculate_weighted_score (<[k := l]> layers) weights
  = _calculate_weighted_score layers weights.
Proof.
  intros Hk. unfold _calculate_weighted_score, score_loop.
  rewrite score_fold_insert_other; [reflexivity |].
  intros km Hin E. apply Hk. unfold canonical_names. rewrite <- E.
  now apply list_elem_of_fmap_2.
Qed.

Lemma layer_get_insert_other
    (layers : gmap string Layer) (k name : string) (l : Layer) :
  name <> k -> layer_get (<[k := l]> layers) name = layer_get layers name.
Proof. intros Hne. unfold layer_get. now rewrite lookup_insert_ne. Qed.

Lemma trajectory_count_insert
    (layers : gmap string Layer) (k : string) (l : Layer) (t : string) :
  layers !! k = None -> trajectory l <> Some t ->
  trajectory_count (<[k := l]> layers) t = trajectory_count layers t.
Proof.
  intros Hk Ht. unfold trajectory_count.
  rewrite (Permutation_length
             (filter_Permutation _ _ _ (map_to_list_insert layers k l Hk))).
  now rewrite filter_cons_False.
Qed.

(** The verdict of the decision table depends on the structural analysis
    only through its [disqualify] flag. *)
Lemma determine_action_verdict
    (ws : Q) (sa sa' : StructuralAnalysis) (bs : BeliefState)
    (layers layers' : gmap string Layer) :
  disqualify sa = disqualify sa' ->
  (_determine_action ws sa bs layers).1 = (_determine_action ws sa' bs layers').1.
Proof.
  intros Hd. unfold _determine_action. rewrite Hd.
  destruct (disqualify sa'); [reflexivity |].
  repeat match goal with
         | |- context [if ?b then _ else _] => destruct b; try reflexivity
         end.
Qed.

(** A layer outside the canonical names and without a trend leaves the
    score, the belief state and the verdict of [synthesize] as they are. *)
Lemma trendless_extra_layer
    (self : SynthesisEngine) (layers : gmap string Layer) (k : string) (l : Layer)
    (name : string) (sector industry : option string) :
  k ∉ canonical_names -> layers !! k = None ->
  trajectory l <> Some "improving" -> trajectory l <> Some "deteriorating" ->
  let r := synthesize self layers name sector industry in
  let r' := synthesize self (<[k := l]> layers) name sector industry in
  weighted_score r' = weighted_score r
  /\ conviction r' = conviction r /\ action r' = action r
  /\ belief_state r' = belief_state r
  /\ disqualified r' = disqualified r
  /\ override_rules r' = override_rules r.
Proof.
  intros Hk Hnone Himp Hdet. cbv zeta.
  assert (forall n, n ∈ canonical_names -> n <> k) as Hne
      by (intros n Hn ->; contradiction).
  assert (forall n, n ∈ canonical_names ->
                    layer_get (<[k := l]> layers) n = layer_get layers n) as Hget
      by (intros n Hn; apply layer_get_insert_other; now apply Hne).
  assert ("business_model" ∈ canonical_names) as Hbm by apply list_elem_of_here.
  assert ("financial_truth" ∈ canonical_names) as Hft
      by (do 1 apply list_elem_of_further; apply list_elem_of_here).
  assert ("management" ∈ canonical_names) as Hmg
      by (do 2 apply list_elem_of_further; apply list_elem_of_here).
  assert ("competitive" ∈ canonical_names) as Hcp
      by (do 4 apply list_elem_of_further; apply list_elem_of_here).
  assert (rule1 (<[k := l]> layers) = rule1 layers) as H1
      by (unfold rule1; now rewrite !Hget).
  assert (rule2 (<[k := l]> layers) = rule2 layers) as H2
      by (unfold rule2; now rewrite !Hget).
  assert (rule3 (<[k := l]> layers) = rule3 layers) as H3
      by (unfold rule3; now rewrite !Hget).
  assert (rule4 (<[k := l]> layers) = rule4 layers) as H4
      by (unfold rule4; now rewrite !Hget).
  assert (rule5 (<[k := l]> layers) = rule5 layers) as H5
      by (unfold rule5; now rewrite !Hget).
  assert (disqualify (_analyze_structural_patterns (<[k := l]> layers))
          = disqualify (_analyze_structural_patterns layers)) as Hd
      by (rewrite !analysis_disqualify, H1, H2, H3, H4; reflexivity).
  assert (override_rules_triggered (_analyze_structural_patterns (<[k := l]> layers))
          = override_rules_triggered (_analyze_structural_patterns layers)) as Ho
      by (rewrite !analysis_overrides, H1, H2, H3, H4, H5; reflexivity).
  assert (evidence_updates (<[k := l]> layers) = evidence_updates layers) as He.
  { unfold evidence_updates, update_trajectory. cbv zeta.
    rewrite !trajectory_count_insert by assumption. now rewrite !Hget. }
  assert (forall sa sa', disqualify sa = disqualify sa' ->
            _compute_belief_state (<[k := l]> layers) sa
            = _compute_belief_state layers sa') as Hb.
  { intros sa sa' E. unfold _compute_belief_state, before_normalization,
      force_disqualified. now rewrite He, E. }
  unfold synthesize.
  rewrite (weighted_score_insert_other_aux layers _ k l Hk).
  destruct (_calculate_weighted_score layers (_get_weights self sector industry))
    as [ws bd].
  rewrite (Hb _ _ Hd).
  pose proof (determine_action_verdict ws
                (_analyze_structural_patterns (<[k := l]> layers))
                (_analyze_structural_patterns layers)
                (_compute_belief_state layers (_analyze_structural_patterns layers))
                (<[k := l]> layers) layers Hd) as Hv.
  destruct (_determine_action ws (_analyze_structural_patterns (<[k := l]> layers))
              _ _) as [[c' a'] rs'].
  destruct (_determine_action ws (_analyze_structural_patterns layers) _ _)
    as [[c a] rs].
  cbn [fst] in Hv. injection Hv as -> ->.
  cbn [weighted_score conviction action belief_state disqualified override_rules].
  repeat split; assumption.
Qed.

(** X24.  Adding a layer under a name outside the seven canonical names,
    with a trajectory that is neither improving nor deteriorating (such
    as the normalized technical placeholder), changes neither the
    weighted score, nor the belief state, nor the conviction and action,
    nor the disqualification and its rules.  (The pattern list and the
    consistency diagnostic may change: they read every score.) *)
Theorem trendless_extra_layer_is_inert
    (self : SynthesisEngine) (layers : gmap string Layer) (k : string) (l : Layer)
    (name : string) (sector industry : option string) :
  k ∉ canonical_names -> layers !! k = None ->
  trajectory l <> Some "improving" -> trajectory l <> Some "deteriorating" ->
  let r := synthesize self layers name sector industry in
  let r' := synthesize self (<[k := l]> layers) name sector industry in
  weighted_score r' = weighted_score r
  /\ conviction r' = conviction r /\ action r' = action r
  /\ belief_state r' = belief_state r
  /\ disqualified r' = disqualified r
  /\ override_rules r' = override_rules r.
Proof. apply trendless_extra_layer. Qed.

Lemma trendless_extra_layer_is_inert_witness :
  conviction (synthesize annotated_engine
                (<["technical" := normalize technical_placeholder]> compounder_layers)
                "ACME" None None)
  = conviction (synthesize annotated_engine compounder_layers "ACME" None None).
Proof.
  apply (trendless_extra_layer_is_inert annotated_engine compounder_layers
           "technical" (normalize technical_placeholder) "ACME" None None).
  - unfold canonical_names. cbn. intros H.
    repeat (apply elem_of_cons in H as [H | H]; [discriminate H |]).
    now apply not_elem_of_nil in H.
  - vm_compute. reflexivity.
  - vm_compute. discriminate.
  - vm_compute. discriminate.
Defined.

(** ** When every analyzer fails *)

Lemma failed_layer_is_empty (fallback : Q) (o : Outcome) :
  failed o -> exists e, normalize_layer (guarded fallback o) = create_empty e.
Proof.
  destruct o as [layer_data | e]; cbn.
  - intros [e He]. exists e. unfold normalize_layer. now rewrite He.
  - intros _. exists e. reflexivity.
Qed.

(** X25.  If every one of the seven analyzers fails (it raises, or the
    dict it returns has an error key), the framework still produces a
    synthesis, and it is the degenerate one: weighted score 50,
    conviction AVOID, action SPECULATION_ONLY, not disqualified, for
    every error text, weight table, sector and industry.  The technical
    placeholder that the framework adds does not alter it. *)
Theorem all_analyzers_failing
    (engine : SynthesisEngine) (o : Outcomes) (name : string)
    (sector industry : option string) :
  all_failed o ->
  let r := analyze_synthesis engine o name sector industry in
  weighted_score r == 50 /\ conviction r = "AVOID"
  /\ action r = "SPECULATION_ONLY" /\ disqualified r = false.
Proof.
  intros (Hbm & Hft & Hmg & Hms & Hcp & Hma & Hrk). cbv zeta.
  unfold analyze_synthesis.
  set (full := normalize_layers (collect_layers o)).
  assert (full !! "technical" = Some (normalize technical_placeholder)) as Htech.
  { unfold full, normalize_layers, collect_layers. rewrite lookup_fmap.
    do 7 (rewrite lookup_insert_ne by discriminate).
    rewrite lookup_insert_eq. reflexivity. }
  assert (all_empty (delete "technical" full)) as Hempty.
  { intros k l Hk. apply lookup_delete_Some in Hk as [Hne Hk].
    unfold full, normalize_layers in Hk.
    apply lookup_fmap_Some in Hk as (layer_data & <- & Hraw).
    unfold collect_layers in Hraw. unfold canonical_names, layer_mapping.
    cbn [fmap list_fmap fst].
    repeat (apply lookup_insert_Some in Hraw as [[<- <-] | [_ Hraw]];
            [first [ congruence
                   | split;
                     [repeat first [apply list_elem_of_here
                                   | apply list_elem_of_further]
                     | now apply failed_layer_is_empty] ] |]).
    now rewrite lookup_empty in Hraw. }
  rewrite <- (insert_delete_id full "technical" _ Htech).
  destruct (trendless_extra_layer engine (delete "technical" full) "technical"
              (normalize technical_placeholder) name sector industry)
    as (Hws & Hc & Ha & _ & Hd & _).
  - unfold canonical_names. cbn. intros H.
    repeat (apply elem_of_cons in H as [H | H]; [discriminate H |]).
    now apply not_elem_of_nil in H.
  - apply lookup_delete_eq.
  - vm_compute. discriminate.
  - vm_compute. discriminate.
  - rewrite Hws, Hc, Ha, Hd.
    apply (synthesize_all_empty engine (delete "technical" full) name sector
             industry Hempty).
Qed.

Lemma all_analyzers_failing_witness :
  all_failed provider_down
  /\ action (analyze_synthesis annotated_engine provider_down "ACME"
               (Some "Technology") None) = "SPECULATION_ONLY".
Proof.
  assert (all_failed provider_down) as H.
  { unfold all_failed, provider_down. cbn. repeat split; eauto. }
  split; [exact H |].
  apply (all_analyzers_failing annotated_engine provider_down "ACME"
           (Some "Technology") None H).
Defined.

(** ** Weight resolution order *)

Lemma drop_private_lookup_public (w : gmap string Q) (k : string) :
  String.prefix "_" k = false -> drop_private w !! k = w !! k.
Proof.
  intros Hk. unfold drop_private.
  destruct (w !! k) as [v |] eqn:Hw.
  - apply map_lookup_filter_Some. split; [exact Hw | exact Hk].
  - apply map_lookup_filter_None. left. exact Hw.
Qed.

(** X26.  Weight resolution: an industry found in the table decides alone,
    whatever the sector, and gives that entry without its underscore keys
    and with every other key unchanged; an industry that is null, empty
    or not in the table hands over to the sector in the same way; when
    neither is found the default entry is returned, and the empty map
    when the table has no default entry.  An empty name is never looked
    up, even if the table has an entry under the empty key. *)
Theorem weight_resolution_order
    (self : SynthesisEngine) (sector industry : option string) :
  let found (name : option string) (w : gmap string Q) :=
    exists n, name = Some n /\ n <> "" /\ industry_weights self !! n = Some w in
  let missing (name : option string) :=
    forall n, name = Some n -> n = "" \/ industry_weights self !! n = None in
  let filtered (w : gmap string Q) (m : gmap string Q) :=
    forall k, m !! k = if String.prefix "_" k then None else w !! k in
  (forall w, found industry w ->
             filtered w (_get_weights self sector industry))
  /\ (forall w, missing industry -> found sector w ->
                filtered w (_get_weights self sector industry))
  /\ (missing industry -> missing sector ->
      _get_weights self sector industry
      = default ∅ (industry_weights self !! "_default_weights")).
Proof.
  cbv zeta.
  assert (forall name w,
             (exists n, name = Some n /\ n <> ""
                        /\ industry_weights self !! n = Some w) ->
             named_entry self name = Some w) as Hfound.
  { intros name w (n & -> & Hn & Hw). unfold named_entry.
    destruct (String.eqb_spec n ""); [contradiction | exact Hw]. }
  assert (forall name,
             (forall n, name = Some n ->
                        n = "" \/ industry_weights self !! n = None) ->
             named_entry self name = None) as Hmissing.
  { intros [n |] H; [| reflexivity]. unfold named_entry.
    destruct (String.eqb_spec n ""); [reflexivity |].
    destruct (H n eq_refl); [contradiction | assumption]. }
  assert (forall w k,
             drop_private w !! k = if String.prefix "_" k then None else w !! k)
    as Hfilter.
  { intros w k. destruct (String.prefix "_" k) eqn:Hk.
    - now apply drop_private_lookup.
    - now apply drop_private_lookup_public. }
  repeat split.
  - intros w Hw k. unfold _get_weights. rewrite (Hfound _ _ Hw). apply Hfilter.
  - intros w Hi Hs k. unfold _get_weights.
    rewrite (Hmissing _ Hi), (Hfound _ _ Hs). apply Hfilter.
  - intros Hi Hs. unfold _get_weights. rewrite (Hmissing _ Hi), (Hmissing _ Hs).
    reflexivity.
Qed.

Lemma weight_resolution_order_witness :
  _get_weights annotated_engine (Some "Technology") (Some "Biotech")
    !! "business_model" = Some 4.
Proof.
  destruct (weight_resolution_order annotated_engine (Some "Technology")
              (Some "Biotech")) as (_ & Hsector & _).
  rewrite (Hsector (<["_version" := 2]> (<["business_model" := 4]> ∅))).
  - vm_compute. reflexivity.
  - intros n [= <-]. right. vm_compute. reflexivity.
  - exists "Technology".
    split; [reflexivity | split; [discriminate | vm_compute; reflexivity]].
Defined.

(** ** The summary of the deltas *)

(** X27.  The headline and the recommendation of a summary never pull in
    opposite directions: the IMPROVING headline always comes with the
    advice to increase or initiate, the DETERIORATING headline with the
    advice to reduce or exit, and the STABLE headline with the advice to
    hold. *)
Theorem headline_matches_recommendation
    (momentum : option Momentum) (drift : RiskDrift) :
  let s := _generate_summary momentum drift in
  (headline s = "[^] IMPROVING: Fundamentals strengthening" ->
   recommendation s = "Consider increasing position or initiating")
  /\ (headline s = "[v] DETERIORATING: Red flags multiplying" ->
      recommendation s = "Consider reducing position or exiting")
  /\ (headline s = "[->] STABLE: No significant changes" ->
      recommendation s = "Hold current position, monitor closely").
Proof.
  cbv zeta. unfold _generate_summary. cbv zeta. cbn [headline recommendation].
  set (dir := default "STABLE" (direction <$> momentum)).
  destruct (bool_decide (dir = "IMPROVING")) eqn:Hi.
  { destruct (bool_decide (overall_drift drift ∈ ["IMPROVING"; "STABLE"]));
      cbn [andb].
    - repeat split; intros H; (reflexivity || discriminate H).
    - apply bool_decide_eq_true in Hi.
      assert (bool_decide (dir = "DETERIORATING") = false) as ->
          by (apply bool_decide_eq_false; rewrite Hi; discriminate).
      assert (bool_decide (dir = "STABLE") = false) as ->
          by (apply bool_decide_eq_false; rewrite Hi; discriminate).
      cbn [andb]. repeat split; intros H; (reflexivity || discriminate H). }
  cbn [andb].
  destruct (bool_decide (dir = "DETERIORATING")) eqn:Hd.
  { destruct (bool_decide
                (overall_drift drift ∈ ["DETERIORATING"; "PERSISTENTLY_RISKY"]));
      cbn [andb].
    - repeat split; intros H; (reflexivity || discriminate H).
    - apply bool_decide_eq_true in Hd.
      assert (bool_decide (dir = "STABLE") = false) as ->
          by (apply bool_decide_eq_false; rewrite Hd; discriminate).
      cbn [andb]. repeat split; intros H; (reflexivity || discriminate H). }
  cbn [andb].
  destruct (bool_decide (dir = "STABLE") && bool_decide (overall_drift drift = "STABLE"));
    repeat split; intros H; (reflexivity || discriminate H).
Qed.

(** ** Agreement between the layers *)

Lemma Qlen_cons {A} (x : A) (l : list A) : Qlen (x :: l) == 1 + Qlen l.
Proof.
  unfold Qlen. cbn [length]. rewrite Nat2Z.inj_succ, <- Z.add_1_l, inject_Z_plus.
  reflexivity.
Qed.

Lemma Qlen_positive {A} (x : A) (l : list A) : 0 < Qlen (x :: l).
Proof.
  unfold Qlen. rewrite <- (Zlt_Qlt 0). cbn [length]. lia.
Qed.

Lemma Qsum_all_equal (l : list Q) (s : Q) :
  Forall (fun x => x == s) l -> Qsum l == Qlen l * s.
Proof.
  induction 1 as [| x l Hx _ IH].
  - unfold Qsum, Qlen. cbn. ring.
  - rewrite Qsum_cons, Qlen_cons, Hx, IH. ring.
Qed.

(** Scores that all agree have no spread. *)
Lemma pvariance_all_equal (x : Q) (l : list Q) (s : Q) :
  Forall (fun y => y == s) (x :: l) -> pvariance (x :: l) == 0.
Proof.
  intros Hall. unfold pvariance. cbv zeta.
  pose proof (Qlen_positive x l) as Hpos.
  assert (Qsum (x :: l) / Qlen (x :: l) == s) as Hmu.
  { rewrite (Qsum_all_equal _ s Hall). field. lra. }
  rewrite Qsum_zero; [unfold Qdiv; ring |].
  apply List.Forall_map. eapply Forall_impl; [exact Hall |].
  intros y Hy. cbn beta. rewrite Hmu, Hy. ring.
Qed.

Lemma present_scores_spec (layers : gmap string Layer) (x : Q) :
  x ∈ present_scores layers
  <-> exists k l, layers !! k = Some l /\ score l = Some x.
Proof.
  unfold present_scores. rewrite list_elem_of_omap. split.
  - intros ([k l] & Hin & Hs). apply elem_of_map_to_list in Hin. eauto.
  - intros (k & l & Hl & Hs). exists (k, l). split; [| exact Hs].
    now apply elem_of_map_to_list.
Qed.

(** X28.  When at least one layer has a score and all the scores present
    are equal, the consistency diagnostic is HIGH and MIXED_SIGNALS is not
    among the matched patterns. *)
Theorem agreeing_layers_are_consistent
    (layers : gmap string Layer) (k : string) (l : Layer) (s : Q) :
  layers !! k = Some l -> score l = Some s ->
  (forall k' l' x, layers !! k' = Some l' -> score l' = Some x -> x == s) ->
  let a := _analyze_structural_patterns layers in
  cross_layer_signals a !! "consistency" = Some "HIGH"
  /\ "MIXED_SIGNALS" ∉ pattern_matches a.
Proof.
  intros Hl Hs Hall. cbv zeta.
  unfold _analyze_structural_patterns. cbv zeta.
  destruct (override_rules_neutral layers) as (_ & Hpm & Hcs). cbv zeta in *.
  destruct (when (rule5 layers) _ _) as [d am ov pm cs].
  cbn [pattern_matches cross_layer_signals] in Hpm, Hcs. subst.
  unfold consistency_check.
  assert (s ∈ present_scores layers) as Hin
      by (apply present_scores_spec; eauto).
  destruct (present_scores layers) as [| x xs] eqn:Hps;
    [now apply not_elem_of_nil in Hin |].
  assert (pvariance (x :: xs) == 0) as Hvar.
  { apply (pvariance_all_equal x xs s). rewrite <- Hps. apply Forall_forall.
    intros y Hy. apply present_scores_spec in Hy as (k' & l' & Hl' & Hs').
    now apply (Hall k' l'). }
  assert (Qlt_bool (pvariance (x :: xs)) 4 = true) as ->
      by (apply Qlt_bool_iff; lra).
  unfold when.
  destruct (Qge_bool _ 7 && Qge_bool _ 7);
    destruct ((3 <=? _)%nat && (_ =? 0)%nat);
    destruct (Qge_bool _ 8 && trajectory_is _ "improving");
    cbn [amplify pattern_matches cross_layer_signals set_amplify append_pattern
         set_signal app];
    (split; [apply lookup_insert_eq |]);
    intros H;
    repeat (apply elem_of_cons in H as [H | H]; [discriminate H |]);
    now apply not_elem_of_nil in H.
Qed.

Lemma agreeing_layers_are_consistent_witness :
  cross_layer_signals (_analyze_structural_patterns errored_layers)
    !! "consistency" = Some "HIGH".
Proof.
  apply (agreeing_layers_are_consistent errored_layers "risk"
           (create_empty "No data") 5).
  - vm_compute. reflexivity.
  - reflexivity.
  - intros k' l' x Hl' Hs'. unfold errored_layers in Hl'.
    apply lookup_insert_Some in Hl' as [[_ <-] | [_ Hl']];
      [injection Hs' as <-; reflexivity |].
    apply lookup_insert_Some in Hl' as [[_ <-] | [_ Hl']];
      [injection Hs' as <-; reflexivity |].
    now rewrite lookup_empty in Hl'.
Defined.

(** ** The normalized score *)


